(** * company_address_extractor: a shallow embedding and its properties

    The development follows [company_address_extractor.py]:

    - Python text ([str]) is a list of Unicode code points, bytes are a list
      of integers in [0, 256);
    - a decoded JSON document is the inductive type [json], a JSON object an
      association list read by first match;
    - the process state ([world]) holds the files written so far and the
      lines printed to the operator; a statement either returns or raises,
      and what was printed or written before a raise stays; standard output
      is taken to accept every line;
    - the network, the process environment and the file system's willingness
      to open a file are inputs ([system]);
    - what the interpreter decides from tables that are not part of the
      program (the Unicode alphanumeric property outside ASCII, the text
      form of floats and containers) is a parameter ([Runtime]). *)

From Stdlib Require Import ZArith List String Ascii Bool Lia DecimalString.
Import ListNotations.
Local Open Scope Z_scope.

(* ===================================================================== *)
(** ** Python text *)
(* ===================================================================== *)

(** A Python [str]: its code points, in order. *)
Definition pystr := list Z.

(** A [bytes] object. *)
Definition pybytes := list Z.

(** A literal of the source, written as a Rocq string of ASCII characters. *)
Definition lit (s : string) : pystr :=
  map (fun a => Z.of_N (N_of_ascii a)) (list_ascii_of_string s).

Definition str_eqb (a b : pystr) : bool :=
  if list_eq_dec Z.eq_dec a b then true else false.

(** [str(n)] for an [int]. *)
Definition str_of_int (n : Z) : pystr :=
  lit (NilZero.string_of_int (Z.to_int n)).

(** [sep.join(parts)]. *)
Fixpoint join (sep : pystr) (parts : list pystr) : pystr :=
  match parts with
  | [] => []
  | [p] => p
  | p :: rest => p ++ sep ++ join sep rest
  end.

(** [s.split(c)] for a separator of one character [c]. *)
Fixpoint split (c : Z) (s : pystr) : list pystr :=
  match s with
  | [] => [[]]
  | x :: rest =>
      if x =? c then [] :: split c rest
      else match split c rest with
           | [] => [[x]]
           | w :: ws => (x :: w) :: ws
           end
  end.

(** [needle in haystack] for two strings. *)
Fixpoint starts_with (p s : pystr) : bool :=
  match p, s with
  | [], _ => true
  | _ :: _, [] => false
  | a :: p', b :: s' => (a =? b) && starts_with p' s'
  end.

Fixpoint contains (needle hay : pystr) : bool :=
  starts_with needle hay ||
  match hay with
  | [] => false
  | _ :: hay' => contains needle hay'
  end.

(** [c.isspace()], the characters [str.strip()] removes. *)
Definition isspace (c : Z) : bool :=
  ((9 <=? c) && (c <=? 13)) || ((28 <=? c) && (c <=? 32))
  || (c =? 0x85) || (c =? 0xA0) || (c =? 0x1680)
  || ((0x2000 <=? c) && (c <=? 0x200A))
  || (c =? 0x2028) || (c =? 0x2029) || (c =? 0x202F)
  || (c =? 0x205F) || (c =? 0x3000).

Fixpoint lstrip (s : pystr) : pystr :=
  match s with
  | [] => []
  | c :: rest => if isspace c then lstrip rest else s
  end.

Definition rstrip (s : pystr) : pystr := rev (lstrip (rev s)).

(** [s.strip()]. *)
Definition strip (s : pystr) : pystr := rstrip (lstrip s).

(** [c.isalnum()] on ASCII. *)
Definition ascii_isalnum (c : Z) : bool :=
  ((48 <=? c) && (c <=? 57)) || ((65 <=? c) && (c <=? 90))
  || ((97 <=? c) && (c <=? 122)).

(* ===================================================================== *)
(** ** Codecs: UTF-8 and base64 *)
(* ===================================================================== *)

Definition is_surrogate (c : Z) : bool := (0xD800 <=? c) && (c <=? 0xDFFF).

(** The UTF-8 bytes of one code point; [None] for what
    [str.encode('utf-8')] refuses (a lone surrogate). *)
Definition utf8_char (c : Z) : option pybytes :=
  if c <? 0 then None
  else if c <? 0x80 then Some [c]
  else if c <? 0x800 then
    Some [Z.lor 0xC0 (Z.shiftr c 6); Z.lor 0x80 (Z.land c 0x3F)]
  else if c <? 0x10000 then
    if is_surrogate c then None
    else Some [Z.lor 0xE0 (Z.shiftr c 12);
               Z.lor 0x80 (Z.land (Z.shiftr c 6) 0x3F);
               Z.lor 0x80 (Z.land c 0x3F)]
  else if c <? 0x110000 then
    Some [Z.lor 0xF0 (Z.shiftr c 18);
          Z.lor 0x80 (Z.land (Z.shiftr c 12) 0x3F);
          Z.lor 0x80 (Z.land (Z.shiftr c 6) 0x3F);
          Z.lor 0x80 (Z.land c 0x3F)]
  else None.

(** [s.encode('utf-8')]; [None] stands for [UnicodeEncodeError]. *)
Fixpoint utf8_encode (s : pystr) : option pybytes :=
  match s with
  | [] => Some []
  | c :: rest =>
      match utf8_char c, utf8_encode rest with
      | Some b, Some bs => Some (b ++ bs)
      | _, _ => None
      end
  end.

Definition is_cont (b : Z) : bool := (0x80 <=? b) && (b <=? 0xBF).

Definition cont_bits (b : Z) : Z := Z.land b 0x3F.

(** [b.decode('utf-8')], strict; [None] stands for [UnicodeDecodeError]. *)
Fixpoint utf8_decode (bs : pybytes) : option pystr :=
  match bs with
  | [] => Some []
  | b0 :: r0 =>
      if (0 <=? b0) && (b0 <? 0x80) then option_map (cons b0) (utf8_decode r0)
      else if (0xC2 <=? b0) && (b0 <=? 0xDF) then
        match r0 with
        | b1 :: r1 =>
            if is_cont b1
            then option_map
                   (cons (Z.lor (Z.shiftl (Z.land b0 0x1F) 6) (cont_bits b1)))
                   (utf8_decode r1)
            else None
        | _ => None
        end
      else if (0xE0 <=? b0) && (b0 <=? 0xEF) then
        match r0 with
        | b1 :: b2 :: r2 =>
            if is_cont b1 && is_cont b2
               && negb ((b0 =? 0xE0) && (b1 <? 0xA0))
               && negb ((b0 =? 0xED) && (0x9F <? b1))
            then option_map
                   (cons (Z.lor (Z.shiftl (Z.land b0 0x0F) 12)
                            (Z.lor (Z.shiftl (cont_bits b1) 6) (cont_bits b2))))
                   (utf8_decode r2)
            else None
        | _ => None
        end
      else if (0xF0 <=? b0) && (b0 <=? 0xF4) then
        match r0 with
        | b1 :: b2 :: b3 :: r3 =>
            if is_cont b1 && is_cont b2 && is_cont b3
               && negb ((b0 =? 0xF0) && (b1 <? 0x90))
               && negb ((b0 =? 0xF4) && (0x8F <? b1))
            then option_map
                   (cons (Z.lor (Z.shiftl (Z.land b0 0x07) 18)
                            (Z.lor (Z.shiftl (cont_bits b1) 12)
                               (Z.lor (Z.shiftl (cont_bits b2) 6)
                                  (cont_bits b3)))))
                   (utf8_decode r3)
            else None
        | _ => None
        end
      else None
  end.

(** The base64 alphabet of RFC 4648, section 4. *)
Definition b64_alphabet : pystr :=
  lit "ABCDEFGHIJKLMNOPQRSTUVWXYZabcdefghijklmnopqrstuvwxyz0123456789+/".

(** The pad character ['=']. *)
Definition b64_pad : Z := 61.

Definition b64_char (i : Z) : Z := nth (Z.to_nat i) b64_alphabet b64_pad.

(** The value of an alphabet character, [None] outside the alphabet. *)
Definition b64_value (c : Z) : option Z :=
  if (65 <=? c) && (c <=? 90) then Some (c - 65)
  else if (97 <=? c) && (c <=? 122) then Some (c - 71)
  else if (48 <=? c) && (c <=? 57) then Some (c + 4)
  else if c =? 43 then Some 62
  else if c =? 47 then Some 63
  else None.

(** [base64.b64encode]: the input is read three bytes at a time into a
    24-bit accumulator ([acc = (acc << 8) | byte]) that is cut into four
    6-bit digits; a last group of one or two bytes is padded with ['=']. *)
Fixpoint b64encode (bs : pybytes) : pybytes :=
  match bs with
  | [] => []
  | [a] =>
      let n := Z.shiftl a 4 in
      [b64_char (Z.land (Z.shiftr n 6) 63); b64_char (Z.land n 63);
       b64_pad; b64_pad]
  | [a; b] =>
      let n := Z.shiftl (Z.lor (Z.shiftl a 8) b) 2 in
      [b64_char (Z.land (Z.shiftr n 12) 63);
       b64_char (Z.land (Z.shiftr n 6) 63);
       b64_char (Z.land n 63); b64_pad]
  | a :: b :: c :: rest =>
      let n := Z.lor (Z.shiftl (Z.lor (Z.shiftl a 8) b) 8) c in
      b64_char (Z.land (Z.shiftr n 18) 63)
      :: b64_char (Z.land (Z.shiftr n 12) 63)
      :: b64_char (Z.land (Z.shiftr n 6) 63)
      :: b64_char (Z.land n 63)
      :: b64encode rest
  end.

(** The inverse reading, used to state that [b64encode] loses nothing:
    four characters give three bytes, a padded last group gives one or two. *)
Fixpoint b64decode (cs : pybytes) : option pybytes :=
  match cs with
  | [] => Some []
  | c0 :: c1 :: c2 :: c3 :: rest =>
      match b64_value c0, b64_value c1 with
      | Some v0, Some v1 =>
          if (c2 =? b64_pad) && (c3 =? b64_pad) then
            match rest with
            | [] => if Z.land v1 15 =? 0
                    then Some [Z.lor (Z.shiftl v0 2) (Z.shiftr v1 4)]
                    else None
            | _ => None
            end
          else
            match b64_value c2 with
            | Some v2 =>
                if c3 =? b64_pad then
                  match rest with
                  | [] => if Z.land v2 3 =? 0
                          then Some [Z.lor (Z.shiftl v0 2) (Z.shiftr v1 4);
                                     Z.lor (Z.shiftl (Z.land v1 15) 4)
                                       (Z.shiftr v2 2)]
                          else None
                  | _ => None
                  end
                else
                  match b64_value c3, b64decode rest with
                  | Some v3, Some bs =>
                      Some (Z.lor (Z.shiftl v0 2) (Z.shiftr v1 4)
                            :: Z.lor (Z.shiftl (Z.land v1 15) 4) (Z.shiftr v2 2)
                            :: Z.lor (Z.shiftl (Z.land v2 3) 6) v3
                            :: bs)
                  | _, _ => None
                  end
            | None => None
            end
      | _, _ => None
      end
  | _ => None
  end.

(* ===================================================================== *)
(** ** Python values *)
(* ===================================================================== *)

(** A [float]: not-a-number, an infinity, or a finite value [num / den]
    (every finite double is a rational). *)
Inductive pyfloat : Type :=
| FNan
| FInf (negative : bool)
| FFin (num : Z) (den : positive).

(** What [json.loads] builds: [None], [bool], [int], [float], [str], [list]
    and [dict]. A [dict] is the list of its items in insertion order, its
    keys distinct; a key is looked up by first match. *)
#[warnings="-register-all"]
Inductive json : Type :=
| JNull
| JBool (b : bool)
| JInt (n : Z)
| JFloat (f : pyfloat)
| JStr (s : pystr)
| JList (elems : list json)
| JObj (fields : list (pystr * json)).

Definition is_nil {A : Type} (l : list A) : bool :=
  match l with [] => true | _ => false end.

(** Python truthiness, the test behind [if x] and [not x]. *)
Definition truthy (v : json) : bool :=
  match v with
  | JNull => false
  | JBool b => b
  | JInt n => negb (n =? 0)
  | JFloat (FFin n _) => negb (n =? 0)
  | JFloat _ => true
  | JStr s => negb (is_nil s)
  | JList l => negb (is_nil l)
  | JObj kv => negb (is_nil kv)
  end.

(** [d[key]] when present. *)
Fixpoint dict_get (kv : list (pystr * json)) (key : pystr) : option json :=
  match kv with
  | [] => None
  | (k, v) :: rest => if str_eqb k key then Some v else dict_get rest key
  end.

Definition is_dict (v : json) : bool :=
  match v with JObj _ => true | _ => false end.

(** What the interpreter and the installed libraries decide and the program
    text does not. *)
Class Runtime : Type := {
  (** [c.isalnum()] for a code point outside ASCII (the Unicode database) *)
  unicode_isalnum : Z -> bool;
  (** [str(v)] for a float, a list or a dict *)
  str_other : json -> pystr;
  (** whether [Response.json()] reports a body that does not decode as
      [requests.exceptions.JSONDecodeError] (requests 2.27 and later: a
      subclass of both [RequestException], through [InvalidJSONError], and
      [json.JSONDecodeError]) or lets [json.JSONDecodeError] through
      (earlier releases) *)
  requests_wraps_json_errors : bool
}.

(* ===================================================================== *)
(** ** Exceptions *)
(* ===================================================================== *)

Inductive exc_kind : Type :=
| KHTTPError
| KConnectTimeout
| KReadTimeout
| KConnectionError
| KRequestException
| KRequestsJSONDecodeError
| KJSONDecodeError
| KOSError
| KTypeError
| KKeyError
| KAttributeError
| KUnboundLocalError
| KUnicodeEncodeError
| KUnicodeDecodeError
| KSystemExit.

(** A raised exception: its class and [str(e)]. *)
Record exc : Type := Exc { kind : exc_kind; message : pystr }.

(** The classes named by the [except] clauses of the program. *)
Inductive exc_class : Type :=
| CHTTPError
| CTimeout
| CConnectionError
| CRequestException
| CJSONDecodeError
| CIOError.

(** [isinstance(e, cls)]: the class hierarchy of requests and of the
    standard library ([RequestException] derives from [IOError];
    [ConnectTimeout] from both [ConnectionError] and [Timeout]). *)
Definition isinstance (e : exc) (c : exc_class) : bool :=
  match kind e, c with
  | KHTTPError, (CHTTPError | CRequestException | CIOError) => true
  | KConnectTimeout,
    (CTimeout | CConnectionError | CRequestException | CIOError) => true
  | KReadTimeout, (CTimeout | CRequestException | CIOError) => true
  | KConnectionError, (CConnectionError | CRequestException | CIOError) => true
  | KRequestException, (CRequestException | CIOError) => true
  | KRequestsJSONDecodeError,
    (CRequestException | CJSONDecodeError | CIOError) => true
  | KJSONDecodeError, CJSONDecodeError => true
  | KOSError, CIOError => true
  | _, _ => false
  end.

(** The first [except] clause, in source order, that accepts [e]. *)
Definition first_clause (clauses : list exc_class) (e : exc)
  : option exc_class :=
  find (isinstance e) clauses.

(** An expression either has a value or raises. *)
Inductive outcome (A : Type) : Type :=
| Returns (a : A)
| Raises (e : exc).
Arguments Returns {A} a.
Arguments Raises {A} e.

Definition obind {A B : Type} (o : outcome A) (k : A -> outcome B)
  : outcome B :=
  match o with
  | Returns a => k a
  | Raises e => Raises e
  end.

Declare Scope py_scope.
Delimit Scope py_scope with py.
Notation "x <~ o ;; k" := (obind o (fun x => k))
  (at level 61, o at next level, right associativity) : py_scope.

Definition raise_kind {A : Type} (k : exc_kind) (msg : string) : outcome A :=
  Raises (Exc k (lit msg)).

(* ===================================================================== *)
(** ** Operations on values *)
(* ===================================================================== *)

Section Values.
Context {rt : Runtime}.

(** [c.isalnum()]. *)
Definition isalnum (c : Z) : bool :=
  if c <? 128 then ascii_isalnum c else unicode_isalnum c.

(** [str(v)]; for a [str] it is the string itself. *)
Definition py_str (v : json) : pystr :=
  match v with
  | JNull => lit "None"
  | JBool true => lit "True"
  | JBool false => lit "False"
  | JInt n => str_of_int n
  | JStr s => s
  | _ => str_other v
  end.

End Values.

(** [v.get(key, default)]: defined on a [dict] only. *)
Definition py_get (v : json) (key : string) (default : json) : outcome json :=
  match v with
  | JObj kv =>
      Returns (match dict_get kv (lit key) with
               | Some x => x
               | None => default
               end)
  | _ => raise_kind KAttributeError "object has no attribute 'get'"
  end.

Definition is_str (s : pystr) (v : json) : bool :=
  match v with JStr t => str_eqb s t | _ => false end.

(** [key in v]: a key of a [dict], an element of a [list], a substring of a
    [str]; any other operand is not iterable. *)
Definition py_in (key : string) (v : json) : outcome bool :=
  match v with
  | JObj kv => Returns (match dict_get kv (lit key) with
                        | Some _ => true
                        | None => false
                        end)
  | JList l => Returns (existsb (is_str (lit key)) l)
  | JStr s => Returns (contains (lit key) s)
  | _ => raise_kind KTypeError "argument is not iterable"
  end.

(** [v[key]] for a string [key]. *)
Definition py_subscript (v : json) (key : string) : outcome json :=
  match v with
  | JObj kv => match dict_get kv (lit key) with
               | Some x => Returns x
               | None => Raises (Exc KKeyError (lit key))
               end
  | _ => raise_kind KTypeError "indices must be integers"
  end.

(** The elements a [for] loop visits. *)
Definition py_iter (v : json) : outcome (list json) :=
  match v with
  | JList l => Returns l
  | JStr s => Returns (map (fun c => JStr [c]) s)
  | JObj kv => Returns (map (fun p => JStr (fst p)) kv)
  | _ => raise_kind KTypeError "object is not iterable"
  end.

(** [len(v)]. *)
Definition py_len (v : json) : outcome Z :=
  match v with
  | JList l => Returns (Z.of_nat (List.length l))
  | JStr s => Returns (Z.of_nat (List.length s))
  | JObj kv => Returns (Z.of_nat (List.length kv))
  | _ => raise_kind KTypeError "object has no len()"
  end.

(** [n < v] for an [int] [n]: numbers compare by value ([bool] is an
    [int], a NaN compares false); any other right operand is a
    [TypeError]. *)
Definition int_lt (n : Z) (v : json) : outcome bool :=
  match v with
  | JInt m => Returns (n <? m)
  | JBool b => Returns (n <? (if b then 1 else 0))
  | JFloat FNan => Returns false
  | JFloat (FInf negative) => Returns (negb negative)
  | JFloat (FFin num den) => Returns (n * Z.pos den <? num)
  | _ => raise_kind KTypeError "'<' not supported between instances"
  end.

(* ===================================================================== *)
(** ** The process and its surroundings *)
(* ===================================================================== *)

(** What a run leaves behind: the files it wrote, by name, and the lines
    it printed, oldest first. *)
Record world : Type := World {
  files : list (pystr * pystr);
  stdout : list pystr
}.

Definition empty_world : world := World [] [].

Fixpoint lookup_file (fs : list (pystr * pystr)) (name : pystr)
  : option pystr :=
  match fs with
  | [] => None
  | (n, c) :: rest => if str_eqb n name then Some c else lookup_file rest name
  end.

(** The content of file [name], [None] when the run has not created it. *)
Definition read_file (w : world) (name : pystr) : option pystr :=
  lookup_file (files w) name.

(** The files with [name] holding [content], whatever it held before. *)
Definition set_file (name content : pystr) (fs : list (pystr * pystr))
  : list (pystr * pystr) :=
  (name, content) :: filter (fun p => negb (str_eqb (fst p) name)) fs.

(** A statement: from a state to an outcome and the state it leaves. *)
Definition M (A : Type) : Type := world -> outcome A * world.

Definition ret {A : Type} (a : A) : M A := fun w => (Returns a, w).

Definition raise {A : Type} (e : exc) : M A := fun w => (Raises e, w).

Definition bind {A B : Type} (m : M A) (k : A -> M B) : M B :=
  fun w =>
    match m w with
    | (Returns a, w') => k a w'
    | (Raises e, w') => (Raises e, w')
    end.

Definition lift {A : Type} (o : outcome A) : M A := fun w => (o, w).

Notation "x <- m ;; k" := (bind m (fun x => k))
  (at level 61, m at next level, right associativity) : py_scope.
Notation "m ;; k" := (bind m (fun _ => k))
  (at level 61, right associativity) : py_scope.
Local Open Scope py_scope.

(** [print(line)]. *)
Definition print (line : pystr) : M unit :=
  fun w => (Returns tt, World (files w) (stdout w ++ [line])).

(** [try: body except cls as e: handler]. *)
Definition try_except {A : Type} (body : M A) (cls : exc_class)
  (handler : exc -> M A) : M A :=
  fun w =>
    match body w with
    | (Raises e, w') =>
        if isinstance e cls then handler e w' else (Raises e, w')
    | r => r
    end.

(** A [requests.Response]: status line, final URL, body text, and what
    [json.loads] makes of the body (the decoder's message when it fails). *)
Record response : Type := Response {
  status_code : Z;
  reason : pystr;
  response_url : pystr;
  text : pystr;
  decoded : pystr + json
}.

(** What [requests.get] does: it raises, or it returns a response. *)
Inductive http_result : Type :=
| Fails (e : exc)
| Responds (r : response).

(** The surroundings of a run. *)
Record system : Type := System {
  (** [os.getenv], after [load_dotenv()] *)
  environ : pystr -> option pystr;
  (** the registry, as a function of the URL and the Authorization header *)
  http_get : pystr -> pystr -> http_result;
  (** [open(name, "w")]: the OS error text when the file cannot be opened *)
  open_error : pystr -> option pystr
}.

Section Program.
Context {rt : Runtime}.
Variable sys : system.

(** [open(name, "w", encoding="utf-8")]: the file is created, or emptied
    when it exists; a refusal of the operating system is an [OSError]. *)
Definition open_w (name : pystr) : M unit :=
  fun w =>
    match open_error sys name with
    | Some msg => (Raises (Exc KOSError msg), w)
    | None => (Returns tt, World (set_file name [] (files w)) (stdout w))
    end.

(** The [UnicodeEncodeError] of a text that has no UTF-8 encoding. *)
Definition encode_error : exc :=
  Exc KUnicodeEncodeError (lit "'utf-8' codec can't encode character").

(** [f.write(chunk)] on the file opened as [name]: the chunk is encoded as
    UTF-8 and appended (leaving the [with] block closes the file, so what
    was written before an exception reaches the disk all the same). *)
Definition f_write (name chunk : pystr) : M unit :=
  fun w =>
    match utf8_encode chunk with
    | None => (Raises encode_error, w)
    | Some _ =>
        let old := match read_file w name with Some c => c | None => [] end in
        (Returns tt, World (set_file name (old ++ chunk) (files w)) (stdout w))
    end.

(* --------------------------------------------------------------------- *)
(** *** [fetch_company_data] *)
(* --------------------------------------------------------------------- *)

Definition base_url : pystr :=
  lit "https://api.company-information.service.gov.uk/advanced-search/companies".

Definition request_url (location : pystr) (sic_codes_list : list pystr)
  : pystr :=
  let sic_codes_query_param := join (lit ",") sic_codes_list in
  base_url ++ lit "?location=" ++ location
  ++ lit "&company_status=active&size=500&sic_codes="
  ++ sic_codes_query_param.

(** The value of the Authorization header. *)
Definition authorization (raw_api_key : pystr) : outcome pystr :=
  let auth_string := raw_api_key ++ lit ":" in
  match utf8_encode auth_string with
  | None => Raises encode_error
  | Some bytes =>
      match utf8_decode (b64encode bytes) with
      | None => raise_kind KUnicodeDecodeError "'utf-8' codec can't decode byte"
      | Some encoded_auth_string =>
          Returns (lit "Basic " ++ encoded_auth_string)
      end
  end.

(** [response.raise_for_status()]. *)
Definition raise_for_status (r : response) : outcome unit :=
  let code := status_code r in
  if (400 <=? code) && (code <? 500) then
    Raises (Exc KHTTPError
              (str_of_int code ++ lit " Client Error: " ++ reason r
               ++ lit " for url: " ++ response_url r))
  else if (500 <=? code) && (code <? 600) then
    Raises (Exc KHTTPError
              (str_of_int code ++ lit " Server Error: " ++ reason r
               ++ lit " for url: " ++ response_url r))
  else Returns tt.

(** [response.json()]. *)
Definition response_json (r : response) : outcome json :=
  match decoded r with
  | inr v => Returns v
  | inl msg =>
      Raises (Exc (if requests_wraps_json_errors
                   then KRequestsJSONDecodeError
                   else KJSONDecodeError) msg)
  end.

(** The [except] clauses of [fetch_company_data], in source order. *)
Definition fetch_clauses : list exc_class :=
  [CHTTPError; CTimeout; CConnectionError; CRequestException;
   CJSONDecodeError].

(** The body of the clause that caught [e]; [resp] is the local variable
    [response], unbound when [requests.get] itself raised. *)
Definition fetch_handler (c : exc_class) (e : exc) (resp : option response)
  : M unit :=
  match c with
  | CHTTPError =>
      print (lit "HTTP error occurred: " ++ message e) ;;
      match resp with
      | Some r =>
          print (lit "Response status code: " ++ str_of_int (status_code r)) ;;
          print (lit "Response text: " ++ text r)
      | None =>
          raise (Exc KUnboundLocalError (lit "response"))
      end
  | CTimeout => print (lit "Timeout error occurred: " ++ message e)
  | CConnectionError => print (lit "Connection error occurred: " ++ message e)
  | CRequestException =>
      print (lit "An unexpected request error occurred: " ++ message e)
  | CJSONDecodeError =>
      print (lit "Failed to decode JSON from response.") ;;
      match resp with
      | Some r => print (lit "Response text: " ++ text r)
      | None => ret tt
      end
  | CIOError => ret tt
  end.

(** An exception raised inside the [try]: the first matching clause runs
    and the function falls through to [return None]; with no matching
    clause the exception leaves the function. *)
Definition fetch_except (e : exc) (resp : option response) : M json :=
  match first_clause fetch_clauses e with
  | Some c => fetch_handler c e resp ;; ret JNull
  | None => raise e
  end.

Definition fetch_company_data (raw_api_key location : pystr)
  (sic_codes_list : list pystr) : M json :=
  let url := request_url location sic_codes_list in
  header <- lift (authorization raw_api_key) ;;
  print (lit "Requesting URL: " ++ url) ;;
  match http_get sys url header with
  | Fails e => fetch_except e None
  | Responds r =>
      match (_ <~ raise_for_status r ;; response_json r)%py with
      | Returns v => ret v
      | Raises e => fetch_except e (Some r)
      end
  end.

(* --------------------------------------------------------------------- *)
(** *** [format_and_save_addresses] *)
(* --------------------------------------------------------------------- *)

(** [c if c.isalnum() else "_"]. *)
Definition sanitize_char (c : Z) : Z := if isalnum c then c else 95.

(** ["".join(c if c.isalnum() else "_" for c in s)]. *)
Definition sanitize (s : pystr) : pystr := map sanitize_char s.

Definition output_filename_of (location first_code : pystr) : pystr :=
  let safe_location := sanitize location in
  let safe_sic_code := sanitize first_code in
  safe_location ++ lit "_" ++ safe_sic_code ++ lit ".txt".

(** [not data or "items" not in data or not data["items"]]. *)
Definition no_items (data : json) : outcome bool :=
  if negb (truthy data) then Returns true
  else
    (has <~ py_in "items" data ;;
     if negb has then Returns true
     else
       items <~ py_subscript data "items" ;;
       Returns (negb (truthy items)))%py.

(** The three locals the loop updates. *)
Record loop_state : Type := LoopState {
  output_lines : list pystr;
  skipped_count : Z;
  processed_count : Z
}.

Definition skip (st : loop_state) : loop_state :=
  LoopState (output_lines st) (skipped_count st + 1) (processed_count st).

(** The fields the loop body reads from one company, after the first skip
    test. *)
Record extracted : Type := Extracted {
  company_name : json;
  address_line_1 : json;
  address_line_2 : json;
  locality : json;
  postal_code : json
}.

Definition extract (company address_info : json) : outcome extracted :=
  (company_name <~ py_get company "company_name" (JStr (lit "N/A")) ;;
   let address_info := if is_dict address_info then address_info
                       else JObj [] in
   address_line_1 <~ py_get address_info "address_line_1" (JStr []) ;;
   address_line_2 <~ py_get address_info "address_line_2" (JStr []) ;;
   locality <~ py_get address_info "locality" (JStr []) ;;
   postal_code <~ py_get address_info "postal_code" (JStr []) ;;
   Returns (Extracted company_name address_line_1 address_line_2 locality
              postal_code))%py.

(** [not company_name and not address_line_1 and not locality and not
    postal_code]. *)
Definition all_blank (x : extracted) : bool :=
  negb (truthy (company_name x)) && negb (truthy (address_line_1 x))
  && negb (truthy (locality x)) && negb (truthy (postal_code x)).

(** The lines appended for one company. *)
Definition block (x : extracted) : list pystr :=
  [py_str (company_name x); py_str (address_line_1 x)]
  ++ (if truthy (address_line_2 x) then [py_str (address_line_2 x)] else [])
  ++ [py_str (locality x); py_str (postal_code x); lit "----"].

(** One pass through the body of [for company in data["items"]]. *)
Definition loop_body (company : json) (st : loop_state)
  : outcome loop_state :=
  (address_info <~ py_get company "registered_office_address" JNull ;;
   if negb (truthy address_info) then Returns (skip st)
   else
     x <~ extract company address_info ;;
     if all_blank x then Returns (skip st)
     else
       Returns (LoopState (output_lines st ++ block x) (skipped_count st)
                  (processed_count st + 1)))%py.

Fixpoint for_each (items : list json) (st : loop_state)
  : outcome loop_state :=
  match items with
  | [] => Returns st
  | company :: rest =>
      (st' <~ loop_body company st ;; for_each rest st')%py
  end.

(** [len(data.get('items', []))]. *)
Definition items_len (data : json) : outcome Z :=
  (items <~ py_get data "items" (JList []) ;; py_len items)%py.

Definition newline : pystr := [10].

Definition no_data_message (location : pystr) (sic_codes_list : list pystr)
  : pystr :=
  lit "No company data found for location '" ++ location
  ++ lit "' and SIC code(s) '" ++ join (lit ", ") sic_codes_list
  ++ lit "'." ++ newline.

Definition all_skipped_message (location : pystr)
  (sic_codes_list : list pystr) : pystr :=
  lit "No companies with complete address data found for location '"
  ++ location ++ lit "' and SIC code(s) '" ++ join (lit ", ") sic_codes_list
  ++ lit "'." ++ newline.

Definition counts_line (received skipped : Z) : pystr :=
  lit "Total records received: " ++ str_of_int received
  ++ lit ", Total skipped: " ++ str_of_int skipped ++ newline.

Definition partial_note : pystr :=
  lit "Note: The number of items on this page is less than total API hits. ".

Definition pagination_note : pystr :=
  lit "This might be due to the 'size' parameter limit per request. Pagination might be needed for all results.".

Definition write_error (output_filename : pystr) (e : exc) : M unit :=
  print (lit "Error writing to file " ++ output_filename ++ lit ": "
         ++ message e).

Definition format_and_save_addresses (data : json) (location : pystr)
  (sic_codes_list : list pystr) : M unit :=
  match sic_codes_list with
  | [] => print (lit "Error: SIC codes list is empty, cannot generate filename.")
  | first_code :: _ =>
      let output_filename := output_filename_of location first_code in
      empty <- lift (no_items data) ;;
      if (empty : bool) then
        print (lit "No company items found in the data or 'items' is empty for "
               ++ location ++ lit " / " ++ join (lit ", ") sic_codes_list
               ++ lit ".") ;;
        try_except
          (open_w output_filename ;;
           f_write output_filename (no_data_message location sic_codes_list) ;;
           print (lit "Output file '" ++ output_filename
                  ++ lit "' created with no data message."))
          CIOError (write_error output_filename)
      else
        items <- lift (py_subscript data "items") ;;
        companies <- lift (py_iter items) ;;
        st <- lift (for_each companies (LoopState [] 0 0)) ;;
        if is_nil (output_lines st) && (processed_count st =? 0) then
          print (lit "All records were skipped due to missing address information for "
                 ++ location ++ lit " / " ++ join (lit ", ") sic_codes_list
                 ++ lit ".") ;;
          try_except
            (open_w output_filename ;;
             f_write output_filename
               (all_skipped_message location sic_codes_list) ;;
             received <- lift (items_len data) ;;
             f_write output_filename
               (counts_line received (skipped_count st)) ;;
             print (lit "Output file '" ++ output_filename
                    ++ lit "' created indicating all records skipped."))
            CIOError (write_error output_filename)
        else
          try_except
            (open_w output_filename ;;
             f_write output_filename (join newline (output_lines st)) ;;
             print (lit "Addresses successfully written to "
                    ++ output_filename) ;;
             print (lit "Total companies processed and written: "
                    ++ str_of_int (processed_count st)) ;;
             (if 0 <? skipped_count st
              then print (lit "Total companies skipped due to missing address: "
                          ++ str_of_int (skipped_count st))
              else ret tt) ;;
             api_hits <- lift (py_get data "hits" (JStr (lit "N/A"))) ;;
             print (lit "Total hits reported by API: " ++ py_str api_hits) ;;
             total_items_from_api_page <- lift (items_len data) ;;
             below <- lift (int_lt total_items_from_api_page api_hits) ;;
             if (below : bool) then
               print partial_note ;;
               print pagination_note
             else ret tt)
            CIOError (write_error output_filename)
  end.

(* --------------------------------------------------------------------- *)
(** *** The entry point *)
(* --------------------------------------------------------------------- *)

(** [not v] for what [os.getenv] returned. *)
Definition unset (v : option pystr) : bool :=
  match v with
  | None => true
  | Some s => is_nil s
  end.

Definition getenv_or_empty (v : option pystr) : pystr :=
  match v with Some s => s | None => [] end.

(** [[code.strip() for code in s.split(',') if code.strip()]]. *)
Definition clean_codes (sic_codes_input_str : pystr) : list pystr :=
  map strip
    (filter (fun code => negb (is_nil (strip code)))
       (split 44 sic_codes_input_str)).

(** [exit()]. *)
Definition py_exit {A : Type} : M A := raise (Exc KSystemExit []).

Definition main : M unit :=
  let raw_api_key_from_env := environ sys (lit "API_KEY") in
  if unset raw_api_key_from_env then
    print (lit "Error: API_KEY not found in .env file. Please create a .env file with your RAW API_KEY.") ;;
    print (lit "Example .env content: API_KEY=your_actual_api_key_without_encoding")
  else
    let location_input := environ sys (lit "LOCATION") in
    let sic_codes_input_str := environ sys (lit "SIC_CODES") in
    if unset location_input then
      print (lit "Location cannot be empty.") ;; py_exit
    else if unset sic_codes_input_str then
      print (lit "SIC code(s) cannot be empty.") ;; py_exit
    else
      let sic_codes_list_input :=
        clean_codes (getenv_or_empty sic_codes_input_str) in
      if is_nil sic_codes_list_input then
        print (lit "SIC code(s) cannot be empty after stripping.")
      else
        company_api_data <-
          fetch_company_data (getenv_or_empty raw_api_key_from_env)
            (getenv_or_empty location_input) sic_codes_list_input ;;
        if truthy company_api_data then
          format_and_save_addresses company_api_data
            (getenv_or_empty location_input) sic_codes_list_input
        else
          print (lit "Could not retrieve or process company data. Please check previous error messages.").

End Program.

(* ===================================================================== *)
(** ** Vocabulary of the statements *)
(* ===================================================================== *)

(** A byte value. *)
Definition is_byte (b : Z) : Prop := 0 <= b < 256.

(** An ASCII character. *)
Definition is_ascii (c : Z) : Prop := 0 <= c < 128.

(** A Unicode scalar value: a code point that is not a surrogate. *)
Definition is_scalar (c : Z) : Prop :=
  0 <= c < 0x110000 /\ ~ (0xD800 <= c <= 0xDFFF).

(** Digit [i] of the alphabet is an ASCII character other than the pad
    and reads back as [i]. *)
Definition alphabet_ok (i : Z) : bool :=
  match b64_value (b64_char i) with
  | Some j => (j =? i) && negb (b64_char i =? b64_pad)
              && (0 <=? b64_char i) && (b64_char i <? 128)
  | None => false
  end.

(** Every character of [s] is ASCII. *)
Definition all_ascii (s : pystr) : bool :=
  forallb (fun c => (0 <=? c) && (c <? 128)) s.

(** Text that [f.write] can encode. *)
Definition encodable (s : pystr) : Prop := utf8_encode s <> None.

(** [d.get(key, default)] on the items of a dict. *)
Definition get_or (kv : list (pystr * json)) (key : string) (default : json)
  : json :=
  match dict_get kv (lit key) with
  | Some v => v
  | None => default
  end.

(** The fields of the address a company carries: those of a dict, none for
    any other value. *)
Definition address_fields (address_info : json) : list (pystr * json) :=
  match address_info with
  | JObj a => a
  | _ => []
  end.

(** What the loop body reads from a company with items [kv]: the name with
    the default ["N/A"], each address field with the default [""]. *)
Definition extraction (kv : list (pystr * json)) (address_info : json)
  : extracted :=
  let a := address_fields address_info in
  Extracted (get_or kv "company_name" (JStr (lit "N/A")))
    (get_or a "address_line_1" (JStr []))
    (get_or a "address_line_2" (JStr []))
    (get_or a "locality" (JStr []))
    (get_or a "postal_code" (JStr [])).

(** The extraction as the specification words it: an empty-string default
    for each missing piece, the name included. *)
Definition spec_extraction (kv : list (pystr * json))
  (address_info : json) : extracted :=
  let a := address_fields address_info in
  Extracted (get_or kv "company_name" (JStr []))
    (get_or a "address_line_1" (JStr []))
    (get_or a "address_line_2" (JStr []))
    (get_or a "locality" (JStr []))
    (get_or a "postal_code" (JStr [])).

(** Name, address line 1, locality and postal code are all falsy; for a
    string that is: empty. *)
Definition blank4 (x : extracted) : Prop :=
  truthy (company_name x) = false /\ truthy (address_line_1 x) = false
  /\ truthy (locality x) = false /\ truthy (postal_code x) = false.

(** [x] with another address line 2. *)
Definition with_line_2 (x : extracted) (v : json) : extracted :=
  Extracted (company_name x) (address_line_1 x) v (locality x)
    (postal_code x).

(** [c] is a dict. *)
Definition is_dictb (c : json) : Prop := is_dict c = true.

(** A statement that changes no file but [name]. *)
Definition touches_only {A : Type} (name : pystr) (m : M A) : Prop :=
  forall w r w', m w = (r, w') ->
                 forall n, n <> name -> read_file w' n = read_file w n.

(** The state after the fetcher announced its request. *)
Definition announced (location : pystr) (codes : list pystr) (w : world)
  : world :=
  World (files w)
    (stdout w ++ [lit "Requesting URL: " ++ request_url location codes]).

Section Statements.
Context {rt : Runtime}.

(** The loop state after a company was processed. *)
Definition processed (st : loop_state) (x : extracted) : loop_state :=
  LoopState (output_lines st ++ block x) (skipped_count st)
    (processed_count st + 1).

(** What the writer prints after it wrote the blocks, up to the line that
    reports the hits. *)
Definition report_lines (output_filename : pystr) (st : loop_state)
  (api_hits : json) : list pystr :=
  [lit "Addresses successfully written to " ++ output_filename;
   lit "Total companies processed and written: "
   ++ str_of_int (processed_count st)]
  ++ (if 0 <? skipped_count st
      then [lit "Total companies skipped due to missing address: "
            ++ str_of_int (skipped_count st)]
      else [])
  ++ [lit "Total hits reported by API: " ++ py_str api_hits].

End Statements.

(* ===================================================================== *)
(** ** Vocabulary of the further statements *)
(* ===================================================================== *)

(** A statement that changes no file and only adds to the printed lines. *)
Definition only_prints {A : Type} (m : M A) : Prop :=
  forall w r w',
    m w = (r, w') ->
    files w' = files w /\ exists printed, stdout w' = stdout w ++ printed.

(** The line the fetcher prints for an exception of requests: the text of
    the first clause that accepts it, then the exception. *)
Definition transport_diagnostic (e : exc) : pystr :=
  (if isinstance e CTimeout then lit "Timeout error occurred: "
   else if isinstance e CConnectionError
        then lit "Connection error occurred: "
        else lit "An unexpected request error occurred: ")
  ++ message e.

(** A code as the entry point keeps it: not empty, without a comma, and
    with no whitespace at either end. *)
Definition clean_code (code : pystr) : Prop :=
  code <> [] /\ ~ In 44 code
  /\ (forall a, hd_error code = Some a -> isspace a = false)
  /\ (forall z, hd_error (rev code) = Some z -> isspace z = false).

(** The address of a company with items [kv], [None] when it has none. *)
Definition address_of (kv : list (pystr * json)) : json :=
  get_or kv "registered_office_address" JNull.

(** A company the loop writes: its address is truthy and its name, address
    line 1, locality and postal code are not all falsy. *)
Definition usable (kv : list (pystr * json)) : bool :=
  truthy (address_of kv) && negb (all_blank (extraction kv (address_of kv))).


(** The block of a company with items [kv]. *)
Definition block_of {rt : Runtime} (kv : list (pystr * json)) : list pystr :=
  block (extraction kv (address_of kv)).

(** A character of a file name the writer makes: alphanumeric, an
    underscore, or the dot of the extension. *)
Definition name_char {rt : Runtime} (c : Z) : Prop :=
  isalnum c = true \/ c = 95 \/ c = 46.

(** The file a run writes, from its settings: named after the location and
    the first cleaned code. *)
Definition run_file {rt : Runtime} (sys : system) : pystr :=
  output_filename_of (getenv_or_empty (environ sys (lit "LOCATION")))
    (hd [] (clean_codes (getenv_or_empty (environ sys (lit "SIC_CODES"))))).

(* ===================================================================== *)
(** ** Sample data *)
(* ===================================================================== *)

(** The runtime of the concrete runs below. They use ASCII text, strings
    and integers only, so the two tables are never consulted; the installed
    requests is a current one. *)
Definition sample_runtime : Runtime := {|
  unicode_isalnum := fun _ => false;
  str_other := fun _ => lit "?";
  requests_wraps_json_errors := true
|}.

(** The same with a requests older than 2.27. *)
Definition legacy_runtime : Runtime := {|
  unicode_isalnum := fun _ => false;
  str_other := fun _ => lit "?";
  requests_wraps_json_errors := false
|}.

Definition sample_environ (k : pystr) : option pystr :=
  if str_eqb k (lit "API_KEY") then Some (lit "abc")
  else if str_eqb k (lit "LOCATION") then Some (lit "New York!")
  else if str_eqb k (lit "SIC_CODES") then Some (lit "62020, 99")
  else None.

(** A registry that answers every request with status 200 and the given
    decoded body, on a file system that opens every file. *)
Definition answering (body : pystr + json) : system := {|
  environ := sample_environ;
  http_get := fun url _ => Responds (Response 200 (lit "OK") url [] body);
  open_error := fun _ => None
|}.

(** The same registry on a file system that refuses every file. *)
Definition read_only (body : pystr + json) : system := {|
  environ := sample_environ;
  http_get := fun url _ => Responds (Response 200 (lit "OK") url [] body);
  open_error := fun _ => Some (lit "[Errno 13] Permission denied")
|}.

Definition field (k : string) (v : json) : pystr * json := (lit k, v).

Definition acme_address : json :=
  JObj [field "address_line_1" (JStr (lit "1 High Street"));
        field "address_line_2" (JStr (lit "Floor 2"));
        field "locality" (JStr (lit "Leeds"));
        field "postal_code" (JStr (lit "LS1 1AA"))].

Definition acme_fields : list (pystr * json) :=
  [field "company_name" (JStr (lit "ACME LTD"));
   field "registered_office_address" acme_address].

(** A company with every address field. *)
Definition acme : json := JObj acme_fields.

Definition bolt_address : json :=
  JObj [field "address_line_1" (JStr (lit "2 Low Road"));
        field "locality" (JStr (lit "York"));
        field "postal_code" (JStr (lit "YO1 2BB"))].

Definition bolt_fields : list (pystr * json) :=
  [field "company_name" (JStr (lit "BOLT LTD"));
   field "registered_office_address" bolt_address].

(** A company whose address has no [address_line_2]. *)
Definition bolt : json := JObj bolt_fields.

(** A company whose address is [null]. *)
Definition ghost : json :=
  JObj [field "company_name" (JStr (lit "GHOST LTD"));
        field "registered_office_address" JNull].

Definition nameless_address : json :=
  JObj [field "address_line_2" (JStr (lit "Suite 1"))].

Definition nameless_fields : list (pystr * json) :=
  [field "registered_office_address" nameless_address].

(** A company with no name and an address that holds only line 2. *)
Definition nameless : json := JObj nameless_fields.

Definition page_fields (items : list json) (hits : Z)
  : list (pystr * json) :=
  [field "items" (JList items); field "hits" (JInt hits)].

(** A response with its items and its reported hits. *)
Definition page (items : list json) (hits : Z) : json :=
  JObj (page_fields items hits).

(** A response that reports no hits. *)
Definition page_without_hits (items : list json) : json :=
  JObj [field "items" (JList items)].

(** The text of a file, line by line. *)
Definition lines (l : list string) : pystr := join newline (map lit l).

(** The settings of the concrete runs, as the entry point reads them. *)
Definition sample_key : pystr := lit "abc".
Definition sample_location : pystr := lit "New York!".
Definition sample_codes : list pystr := [lit "62020"; lit "99"].
Definition sample_file : pystr := lit "New_York__62020.txt".
Definition sample_url : pystr :=
  lit "https://api.company-information.service.gov.uk/advanced-search/companies?location=New York!&company_status=active&size=500&sic_codes=62020,99".

(** The response of [answering body]. *)
Definition sample_response (body : pystr + json) : response :=
  Response 200 (lit "OK") sample_url [] body.

(** The locals of the writer before its loop. *)
Definition start : loop_state := LoopState [] 0 0.

(** A registry that cannot be reached: every request raises [e]. *)
Definition failing (e : exc) : system := {|
  environ := sample_environ;
  http_get := fun _ _ => Fails e;
  open_error := fun _ => None
|}.

(** The answer of a registry that does not know the resource. *)
Definition not_found : response :=
  Response 404 (lit "Not Found") sample_url (lit "{}") (inr (JObj [])).

(** A registry that answers every request with status 404. *)
Definition refusing : system := {|
  environ := sample_environ;
  http_get := fun _ _ => Responds not_found;
  open_error := fun _ => None
|}.

Definition ghost_fields : list (pystr * json) :=
  [field "company_name" (JStr (lit "GHOST LTD"));
   field "registered_office_address" JNull].

Definition lodger_fields : list (pystr * json) :=
  [field "company_name" (JStr (lit "LODGER LTD"));
   field "registered_office_address" (JStr (lit "care of the agent"))].

(** A company whose address is a string. *)
Definition lodger : json := JObj lodger_fields.

(** The exception of a connection that timed out. *)
Definition connect_timeout : exc := Exc KConnectTimeout (lit "timed out").

(* ===================================================================== *)
(** ** Properties *)
(* ===================================================================== *)

(** *** Bits as arithmetic *)

Lemma lor_shiftl_low (hi lo k : Z) :
  0 <= k -> 0 <= lo < 2 ^ k -> Z.lor (Z.shiftl hi k) lo = hi * 2 ^ k + lo.
Proof.
  intros Hk Hlo.
  rewrite <- Z.shiftl_mul_pow2 by assumption.
  assert (Hland : Z.land (Z.shiftl hi k) lo = 0).
  { apply Z.bits_inj'. intros n Hn.
    rewrite Z.land_spec, Z.bits_0.
    destruct (Z.ltb_spec n k) as [Hlt | Hge].
    - rewrite Z.shiftl_spec_low by assumption. reflexivity.
    - replace lo with (lo mod 2 ^ k) by (apply Z.mod_small; assumption).
      rewrite Z.mod_pow2_bits_high by lia. apply andb_false_r. }
  rewrite <- Z.lxor_lor by assumption.
  symmetry. apply Z.add_nocarry_lxor. assumption.
Qed.

Lemma shiftr_div (x k : Z) : 0 <= k -> Z.shiftr x k = x / 2 ^ k.
Proof. intros. apply Z.shiftr_div_pow2. assumption. Qed.

Lemma land_low (x k : Z) : 0 <= k -> Z.land x (2 ^ k - 1) = x mod 2 ^ k.
Proof.
  intros Hk. rewrite <- Z.land_ones by assumption.
  rewrite Z.ones_equiv, <- Z.sub_1_r. reflexivity.
Qed.

Lemma land_63 (x : Z) : Z.land x 63 = x mod 64.
Proof. apply (land_low x 6). lia. Qed.

Lemma land_15 (x : Z) : Z.land x 15 = x mod 16.
Proof. apply (land_low x 4). lia. Qed.

Lemma land_3 (x : Z) : Z.land x 3 = x mod 4.
Proof. apply (land_low x 2). lia. Qed.

Lemma pack2 (a b : Z) :
  is_byte b -> Z.lor (Z.shiftl a 8) b = a * 256 + b.
Proof. intros Hb. apply (lor_shiftl_low a b 8); [lia | exact Hb]. Qed.

Ltac digits :=
  repeat rewrite land_63; repeat rewrite land_15; repeat rewrite land_3;
  repeat rewrite shiftr_div by lia; repeat rewrite Z.shiftl_mul_pow2 by lia;
  change (2 ^ 18) with 262144; change (2 ^ 12) with 4096;
  change (2 ^ 6) with 64; change (2 ^ 4) with 16; change (2 ^ 2) with 4.

Lemma unpack_hi (d0 d1 : Z) :
  0 <= d1 < 64 -> Z.lor (Z.shiftl d0 2) (Z.shiftr d1 4) = d0 * 4 + d1 / 16.
Proof.
  intros H. rewrite shiftr_div by lia. change (2 ^ 4) with 16.
  apply (lor_shiftl_low d0 (d1 / 16) 2); [lia |].
  change (2 ^ 2) with 4. Z.div_mod_to_equations. lia.
Qed.

Lemma unpack_mid (d1 d2 : Z) :
  0 <= d2 < 64 ->
  Z.lor (Z.shiftl (Z.land d1 15) 4) (Z.shiftr d2 2) = (d1 mod 16) * 16 + d2 / 4.
Proof.
  intros H. rewrite land_15, shiftr_div by lia. change (2 ^ 2) with 4.
  apply (lor_shiftl_low (d1 mod 16) (d2 / 4) 4); [lia |].
  change (2 ^ 4) with 16. Z.div_mod_to_equations. lia.
Qed.

Lemma unpack_lo (d2 d3 : Z) :
  0 <= d3 < 64 -> Z.lor (Z.shiftl (Z.land d2 3) 6) d3 = (d2 mod 4) * 64 + d3.
Proof.
  intros H. rewrite land_3.
  apply (lor_shiftl_low (d2 mod 4) d3 6); [lia | exact H].
Qed.

Lemma digit_range (x : Z) : 0 <= Z.land x 63 < 64.
Proof. rewrite land_63. apply Z.mod_pos_bound. lia. Qed.

Lemma group3 (a b c : Z) :
  is_byte a -> is_byte b -> is_byte c ->
  let n := Z.lor (Z.shiftl (Z.lor (Z.shiftl a 8) b) 8) c in
  let d0 := Z.land (Z.shiftr n 18) 63 in
  let d1 := Z.land (Z.shiftr n 12) 63 in
  let d2 := Z.land (Z.shiftr n 6) 63 in
  let d3 := Z.land n 63 in
  Z.lor (Z.shiftl d0 2) (Z.shiftr d1 4) = a
  /\ Z.lor (Z.shiftl (Z.land d1 15) 4) (Z.shiftr d2 2) = b
  /\ Z.lor (Z.shiftl (Z.land d2 3) 6) d3 = c.
Proof.
  intros Ha Hb Hc n d0 d1 d2 d3.
  rewrite unpack_hi by apply digit_range.
  rewrite unpack_mid by apply digit_range.
  rewrite unpack_lo by apply digit_range.
  subst d0 d1 d2 d3 n.
  rewrite (pack2 a b Hb), (pack2 (a * 256 + b) c Hc).
  digits. unfold is_byte in *.
  repeat split; Z.div_mod_to_equations; lia.
Qed.

Lemma group2 (a b : Z) :
  is_byte a -> is_byte b ->
  let n := Z.shiftl (Z.lor (Z.shiftl a 8) b) 2 in
  let d0 := Z.land (Z.shiftr n 12) 63 in
  let d1 := Z.land (Z.shiftr n 6) 63 in
  let d2 := Z.land n 63 in
  Z.lor (Z.shiftl d0 2) (Z.shiftr d1 4) = a
  /\ Z.lor (Z.shiftl (Z.land d1 15) 4) (Z.shiftr d2 2) = b
  /\ Z.land d2 3 = 0.
Proof.
  intros Ha Hb n d0 d1 d2.
  rewrite unpack_hi by apply digit_range.
  rewrite unpack_mid by apply digit_range.
  subst d0 d1 d2 n.
  rewrite (pack2 a b Hb).
  digits. unfold is_byte in *.
  repeat split; Z.div_mod_to_equations; lia.
Qed.

Lemma group1 (a : Z) :
  is_byte a ->
  let n := Z.shiftl a 4 in
  let d0 := Z.land (Z.shiftr n 6) 63 in
  let d1 := Z.land n 63 in
  Z.lor (Z.shiftl d0 2) (Z.shiftr d1 4) = a /\ Z.land d1 15 = 0.
Proof.
  intros Ha n d0 d1.
  rewrite unpack_hi by apply digit_range.
  subst d0 d1 n.
  digits. unfold is_byte in *.
  repeat split; Z.div_mod_to_equations; lia.
Qed.

(** *** base64 *)

Example b64_abc : b64encode [97; 98; 99; 58] = lit "YWJjOg==".
Proof. reflexivity. Qed.

Example b64_abc_back : b64decode (lit "YWJjOg==") = Some [97; 98; 99; 58].
Proof. reflexivity. Qed.

Lemma alphabet_checked :
  forallb alphabet_ok (map Z.of_nat (seq 0 64)) = true.
Proof. vm_compute. reflexivity. Qed.

Lemma b64_char_spec (i : Z) :
  0 <= i < 64 ->
  b64_value (b64_char i) = Some i /\ b64_char i <> b64_pad
  /\ is_ascii (b64_char i).
Proof.
  intros Hi.
  assert (Hin : In i (map Z.of_nat (seq 0 64))).
  { apply in_map_iff. exists (Z.to_nat i). split; [lia |].
    apply in_seq. lia. }
  pose proof (proj1 (forallb_forall _ _) alphabet_checked i Hin) as Hok.
  unfold alphabet_ok in Hok.
  destruct (b64_value (b64_char i)) as [j |]; [| discriminate].
  repeat (apply andb_prop in Hok; destruct Hok as [Hok ?]).
  unfold is_ascii. repeat split; try lia.
  f_equal. lia.
Qed.

Lemma list_ind3 {A : Type} (P : list A -> Prop) :
  P [] -> (forall a, P [a]) -> (forall a b, P [a; b]) ->
  (forall a b c rest, P rest -> P (a :: b :: c :: rest)) ->
  forall l, P l.
Proof.
  intros H0 H1 H2 H3.
  fix IH 1. intros [| a [| b [| c rest]]].
  - exact H0.
  - exact (H1 a).
  - exact (H2 a b).
  - exact (H3 a b c rest (IH rest)).
Qed.

Lemma b64decode_full (c0 c1 c2 c3 : Z) (rest : pybytes) (v0 v1 v2 v3 : Z)
  (bs : pybytes) :
  b64_value c0 = Some v0 -> b64_value c1 = Some v1 ->
  b64_value c2 = Some v2 -> b64_value c3 = Some v3 ->
  c2 <> b64_pad -> c3 <> b64_pad ->
  b64decode rest = Some bs ->
  b64decode (c0 :: c1 :: c2 :: c3 :: rest)
  = Some (Z.lor (Z.shiftl v0 2) (Z.shiftr v1 4)
          :: Z.lor (Z.shiftl (Z.land v1 15) 4) (Z.shiftr v2 2)
          :: Z.lor (Z.shiftl (Z.land v2 3) 6) v3 :: bs).
Proof.
  intros E0 E1 E2 E3 N2 N3 Er.
  cbn [b64decode]. rewrite E0, E1, E2, E3, Er.
  apply Z.eqb_neq in N2, N3. rewrite N2, N3. reflexivity.
Qed.

(** Decoding what [b64encode] produced gives the bytes back. *)
Theorem b64decode_b64encode (bs : pybytes) :
  Forall is_byte bs -> b64decode (b64encode bs) = Some bs.
Proof.
  induction bs as [| a | a b | a b c rest IH] using list_ind3; intros Hb.
  - reflexivity.
  - inversion Hb as [| ? ? Ha _]; subst.
    destruct (group1 a Ha) as [E Z0].
    cbn [b64encode b64decode].
    destruct (b64_char_spec _ (digit_range (Z.shiftr (Z.shiftl a 4) 6)))
      as (V0 & _ & _).
    destruct (b64_char_spec _ (digit_range (Z.shiftl a 4))) as (V1 & _ & _).
    rewrite V0, V1. rewrite Z.eqb_refl. cbn [andb].
    rewrite Z0, E. reflexivity.
  - inversion Hb as [| ? ? Ha Hb']; subst.
    inversion Hb' as [| ? ? Hb2 _]; subst.
    destruct (group2 a b Ha Hb2) as (E0 & E1 & Z0).
    cbn [b64encode b64decode].
    set (n := Z.shiftl (Z.lor (Z.shiftl a 8) b) 2) in *.
    destruct (b64_char_spec _ (digit_range (Z.shiftr n 12))) as (V0 & _ & _).
    destruct (b64_char_spec _ (digit_range (Z.shiftr n 6))) as (V1 & _ & _).
    destruct (b64_char_spec _ (digit_range n)) as (V2 & N2 & _).
    rewrite V0, V1, V2. apply Z.eqb_neq in N2. rewrite N2, Z.eqb_refl.
    cbn [andb]. rewrite Z0, E0, E1. reflexivity.
  - inversion Hb as [| ? ? Ha Hb1]; subst.
    inversion Hb1 as [| ? ? Hb2 Hb3]; subst.
    inversion Hb3 as [| ? ? Hc Hrest]; subst.
    destruct (group3 a b c Ha Hb2 Hc) as (E0 & E1 & E2).
    cbn [b64encode].
    set (n := Z.lor (Z.shiftl (Z.lor (Z.shiftl a 8) b) 8) c) in *.
    destruct (b64_char_spec _ (digit_range (Z.shiftr n 18))) as (V0 & _ & _).
    destruct (b64_char_spec _ (digit_range (Z.shiftr n 12))) as (V1 & _ & _).
    destruct (b64_char_spec _ (digit_range (Z.shiftr n 6))) as (V2 & N2 & _).
    destruct (b64_char_spec _ (digit_range n)) as (V3 & N3 & _).
    rewrite (b64decode_full _ _ _ _ _ _ _ _ _ _ V0 V1 V2 V3 N2 N3 (IH Hrest)).
    cbv zeta in E0, E1, E2. rewrite E0, E1, E2. reflexivity.
Qed.

Lemma b64_digit_ascii (x : Z) : is_ascii (b64_char (Z.land x 63)).
Proof. apply b64_char_spec, digit_range. Qed.

Lemma b64encode_ascii (bs : pybytes) : Forall is_ascii (b64encode bs).
Proof.
  assert (Hpad : is_ascii b64_pad) by (unfold is_ascii, b64_pad; lia).
  induction bs as [| a | a b | a b c rest IH] using list_ind3;
    cbn [b64encode];
    repeat (apply Forall_cons;
            [first [exact Hpad | apply b64_digit_ascii] |]);
    first [apply Forall_nil | exact IH].
Qed.

Lemma b64encode_length (bs : pybytes) :
  List.length (b64encode bs) = (4 * ((List.length bs + 2) / 3))%nat.
Proof.
  induction bs as [| a | a b | a b c rest IH] using list_ind3;
    try reflexivity.
  cbn [b64encode List.length]. rewrite IH.
  replace (S (S (S (List.length rest))) + 2)%nat
    with (List.length rest + 2 + 1 * 3)%nat by lia.
  rewrite Nat.div_add by lia. lia.
Qed.

(** *** UTF-8 *)

Lemma utf8_decode_ascii (l : pybytes) :
  Forall is_ascii l -> utf8_decode l = Some l.
Proof.
  induction 1 as [| c l Hc _ IH]; [reflexivity |].
  cbn [utf8_decode]. unfold is_ascii in Hc.
  replace ((0 <=? c) && (c <? 128)) with true
    by (symmetry; apply andb_true_intro; split; lia).
  rewrite IH. reflexivity.
Qed.

Lemma utf8_encode_ascii (s : pystr) :
  Forall is_ascii s -> utf8_encode s = Some s.
Proof.
  induction 1 as [| c l Hc _ IH]; [reflexivity |].
  cbn [utf8_encode]. unfold utf8_char, is_ascii in *.
  replace (c <? 0) with false by (symmetry; apply Z.ltb_ge; lia).
  replace (c <? 128) with true by (symmetry; apply Z.ltb_lt; lia).
  rewrite IH. reflexivity.
Qed.

Lemma utf8_char_scalar (c : Z) :
  is_scalar c -> exists b, utf8_char c = Some b.
Proof.
  intros [Hr Hs]. unfold utf8_char, is_surrogate.
  destruct (Z.ltb_spec c 0); [lia |].
  destruct (Z.ltb_spec c 128); [eauto |].
  destruct (Z.ltb_spec c 2048); [eauto |].
  destruct (Z.ltb_spec c 65536).
  - destruct (Z.leb_spec 55296 c), (Z.leb_spec c 57343); cbn [andb]; eauto.
    lia.
  - destruct (Z.ltb_spec c 1114112); [eauto | lia].
Qed.

Lemma utf8_encode_scalar (s : pystr) :
  Forall is_scalar s -> exists bs, utf8_encode s = Some bs.
Proof.
  induction 1 as [| c l Hc _ [bs IH]]; [exists []; reflexivity |].
  destruct (utf8_char_scalar c Hc) as [b Hb].
  exists (b ++ bs). cbn [utf8_encode]. rewrite Hb, IH. reflexivity.
Qed.

Lemma lor_tag (tag k x : Z) :
  0 <= k -> 0 <= x < 2 ^ k -> 0 <= tag -> tag * 2 ^ k + 2 ^ k <= 256 ->
  is_byte (Z.lor (Z.shiftl tag k) x).
Proof.
  intros Hk Hx Ht Hb. rewrite lor_shiftl_low by assumption.
  unfold is_byte. nia.
Qed.

Lemma utf8_char_bytes (c : Z) (b : pybytes) :
  utf8_char c = Some b -> Forall is_byte b.
Proof.
  unfold utf8_char.
  assert (Hcont : forall x, is_byte (Z.lor 128 (Z.land x 63))).
  { intros x. apply (lor_tag 2 6); try lia.
    change (2 ^ 6) with 64. apply digit_range. }
  assert (Hlead : forall tag k n,
             0 <= k -> 0 <= n -> 0 <= tag -> tag * 2 ^ k + 2 ^ k <= 256 ->
             0 <= c < 2 ^ (n + k) ->
             is_byte (Z.lor (Z.shiftl tag k) (Z.shiftr c n))).
  { intros tag k n Hk Hn Ht Hb Hc. apply lor_tag; try assumption.
    rewrite shiftr_div by assumption. split.
    - apply Z.div_pos; [lia | apply Z.pow_pos_nonneg; lia].
    - apply Z.div_lt_upper_bound; [apply Z.pow_pos_nonneg; lia |].
      rewrite <- Z.pow_add_r by assumption. lia. }
  destruct (Z.ltb_spec c 0); [discriminate |].
  destruct (Z.ltb_spec c 128).
  { intros [= <-]. repeat constructor; unfold is_byte; lia. }
  destruct (Z.ltb_spec c 2048).
  { intros [= <-].
    repeat (apply Forall_cons; [first [apply Hcont | idtac] |]);
      [| apply Forall_nil].
    apply (Hlead 6 5 6); cbn; lia. }
  destruct (Z.ltb_spec c 65536).
  { destruct (is_surrogate c); [discriminate |].
    intros [= <-].
    repeat (apply Forall_cons; [first [apply Hcont | idtac] |]);
      [| apply Forall_nil].
    apply (Hlead 14 4 12); cbn; lia. }
  destruct (Z.ltb_spec c 1114112); [| discriminate].
  intros [= <-].
  repeat (apply Forall_cons; [first [apply Hcont | idtac] |]);
    [| apply Forall_nil].
  apply (Hlead 30 3 18); cbn; lia.
Qed.

Lemma utf8_encode_bytes (s : pystr) (bs : pybytes) :
  utf8_encode s = Some bs -> Forall is_byte bs.
Proof.
  revert bs. induction s as [| c s IH]; intros bs.
  - intros [= <-]. constructor.
  - cbn [utf8_encode].
    destruct (utf8_char c) as [b |] eqn:Eb; [| discriminate].
    destruct (utf8_encode s) as [bs' |]; [| discriminate].
    intros [= <-]. apply Forall_app. split.
    + apply (utf8_char_bytes c). assumption.
    + apply IH. reflexivity.
Qed.

(** *** Strings and values *)

Lemma str_eqb_refl (s : pystr) : str_eqb s s = true.
Proof. unfold str_eqb. destruct (list_eq_dec Z.eq_dec s s); congruence. Qed.

Lemma str_eqb_eq (a b : pystr) : str_eqb a b = true <-> a = b.
Proof.
  unfold str_eqb. destruct (list_eq_dec Z.eq_dec a b); split; congruence.
Qed.

Lemma str_eqb_neq (a b : pystr) : str_eqb a b = false <-> a <> b.
Proof.
  unfold str_eqb. destruct (list_eq_dec Z.eq_dec a b); split; congruence.
Qed.

Lemma truthy_str (s : pystr) : truthy (JStr s) = false <-> s = [].
Proof. destruct s; cbn; split; congruence. Qed.

(** *** The loop over the companies *)

Section Loop.
Context {rt : Runtime}.

Lemma extract_dict (kv : list (pystr * json)) (address_info : json) :
  extract (JObj kv) address_info = Returns (extraction kv address_info).
Proof. destruct address_info; reflexivity. Qed.

Lemma block_length (x : extracted) :
  List.length (block x) = if truthy (address_line_2 x) then 6%nat else 5%nat.
Proof. unfold block. destruct (truthy (address_line_2 x)); reflexivity. Qed.

Lemma block_nonempty (x : extracted) : block x <> [].
Proof. unfold block. discriminate. Qed.

(** The loop body on a dict, by cases. *)
Lemma loop_body_dict (kv : list (pystr * json)) (st : loop_state) :
  loop_body (JObj kv) st =
  Returns
    (let address_info := get_or kv "registered_office_address" JNull in
     if negb (truthy address_info) then skip st
     else if all_blank (extraction kv address_info) then skip st
     else processed st (extraction kv address_info)).
Proof.
  unfold loop_body. cbn [py_get obind]. fold (get_or kv "registered_office_address" JNull).
  destruct (truthy (get_or kv "registered_office_address" JNull)); cbn [negb];
    [| reflexivity].
  rewrite extract_dict. cbn [obind].
  destruct (all_blank _); reflexivity.
Qed.

Lemma loop_body_returns (company : json) (st st' : loop_state) :
  loop_body company st = Returns st' -> exists kv, company = JObj kv.
Proof. destruct company; try discriminate. eauto. Qed.

Lemma skip_ne_processed (st : loop_state) (x : extracted) :
  skip st <> processed st x.
Proof.
  unfold skip, processed. intros E.
  apply (f_equal processed_count) in E. cbn in E. lia.
Qed.

Lemma all_blank_iff (x : extracted) : all_blank x = true <-> blank4 x.
Proof.
  unfold all_blank, blank4.
  destruct (truthy (company_name x)), (truthy (address_line_1 x)),
    (truthy (locality x)), (truthy (postal_code x)); cbn; intuition congruence.
Qed.

(** C2, as the code has it. For every company (a dict) whose address is
    present and truthy, the loop body extracts the name with the default
    ["N/A"] and address line 1, address line 2, locality and postal code
    with the default [""] (from the address when it is a dict, all defaults
    otherwise); it counts the company as skipped if and only if the
    extracted name, address line 1, locality and postal code are all falsy
    (for strings: empty), and processes it otherwise; address line 2 has no
    part in the decision. *)
Theorem extraction_and_skip (kv : list (pystr * json)) (address_info : json)
  (st : loop_state) :
  dict_get kv (lit "registered_office_address") = Some address_info ->
  truthy address_info = true ->
  let a := address_fields address_info in
  let x := extraction kv address_info in
  extract (JObj kv) address_info = Returns x
  /\ company_name x = get_or kv "company_name" (JStr (lit "N/A"))
  /\ address_line_1 x = get_or a "address_line_1" (JStr [])
  /\ address_line_2 x = get_or a "address_line_2" (JStr [])
  /\ locality x = get_or a "locality" (JStr [])
  /\ postal_code x = get_or a "postal_code" (JStr [])
  /\ (loop_body (JObj kv) st = Returns (skip st) <-> blank4 x)
  /\ (~ blank4 x -> loop_body (JObj kv) st = Returns (processed st x))
  /\ (forall v, blank4 (with_line_2 x v) <-> blank4 x).
Proof.
  intros Haddr Htruthy a x.
  split; [apply extract_dict |].
  do 5 (split; [reflexivity |]).
  assert (Hbody : loop_body (JObj kv) st
                  = Returns (if all_blank x then skip st else processed st x)).
  { rewrite loop_body_dict. unfold get_or. rewrite Haddr. cbv zeta.
    rewrite Htruthy. reflexivity. }
  assert (Hl2 : forall v, blank4 (with_line_2 x v) <-> blank4 x).
  { intros v. unfold blank4, with_line_2. cbn. tauto. }
  rewrite Hbody. destruct (all_blank x) eqn:E.
  - apply all_blank_iff in E.
    split; [tauto |]. split; [tauto | exact Hl2].
  - assert (N : ~ blank4 x).
    { intros B. apply all_blank_iff in B. congruence. }
    split; [| split; [reflexivity | exact Hl2]].
    split; [| tauto].
    intros E'. exfalso. apply (skip_ne_processed st x). congruence.
Qed.

(** C7. Every processed company adds one block to the output lines: name,
    address line 1, address line 2 only when it is truthy (for a string:
    non-empty; no placeholder line otherwise), locality, postal code and the
    separator line ["----"]; the block has six lines with address line 2
    and five without. *)
Theorem processed_block (company : json) (st st' : loop_state) :
  loop_body company st = Returns st' ->
  processed_count st' <> processed_count st ->
  exists kv address_info x,
    company = JObj kv
    /\ dict_get kv (lit "registered_office_address") = Some address_info
    /\ extract company address_info = Returns x
    /\ processed_count st' = processed_count st + 1
    /\ output_lines st' = output_lines st ++ block x
    /\ block x
       = (if truthy (address_line_2 x)
          then [py_str (company_name x); py_str (address_line_1 x);
                py_str (address_line_2 x); py_str (locality x);
                py_str (postal_code x); lit "----"]
          else [py_str (company_name x); py_str (address_line_1 x);
                py_str (locality x); py_str (postal_code x); lit "----"])
    /\ List.length (block x)
       = (if truthy (address_line_2 x) then 6%nat else 5%nat).
Proof.
  intros Hbody Hcount.
  destruct (loop_body_returns _ _ _ Hbody) as [kv ->].
  rewrite loop_body_dict in Hbody. cbv zeta in Hbody.
  unfold get_or in Hbody.
  destruct (dict_get kv (lit "registered_office_address")) as [addr |] eqn:Ea;
    [| cbn in Hbody; injection Hbody as <-; cbn in Hcount; congruence].
  destruct (truthy addr); cbn [negb] in Hbody;
    [| injection Hbody as <-; cbn in Hcount; congruence].
  destruct (all_blank (extraction kv addr));
    [injection Hbody as <-; cbn in Hcount; congruence |].
  injection Hbody as <-.
  exists kv, addr, (extraction kv addr).
  split; [reflexivity |]. split; [exact Ea |].
  split; [apply extract_dict |]. split; [reflexivity |].
  split; [reflexivity |]. split; [| apply block_length].
  unfold block. destruct (truthy _); reflexivity.
Qed.

(** What the loop does to its three locals, from any state. *)
Lemma for_each_invariant (items : list json) :
  forall st st',
    for_each items st = Returns st' ->
    processed_count st' + skipped_count st'
    = processed_count st + skipped_count st + Z.of_nat (List.length items)
    /\ processed_count st <= processed_count st'
    /\ skipped_count st <= skipped_count st'
    /\ exists added,
         output_lines st' = output_lines st ++ added
         /\ (added = [] <-> processed_count st' = processed_count st).
Proof.
  induction items as [| company rest IH]; intros st st' Hrun.
  - cbn [for_each] in Hrun. injection Hrun as <-. cbn [List.length].
    split; [lia |]. split; [lia |]. split; [lia |].
    exists []. rewrite app_nil_r. tauto.
  - cbn [for_each] in Hrun.
    destruct (loop_body company st) as [st1 |] eqn:Hbody; [| discriminate].
    cbn [obind] in Hrun.
    destruct (IH _ _ Hrun) as (Hsum & Hp & Hs & added & Hlines & Hadded).
    destruct (loop_body_returns _ _ _ Hbody) as [kv ->].
    rewrite loop_body_dict in Hbody. cbv zeta in Hbody.
    assert (Hstep : st1 = skip st
                    \/ exists x, st1 = processed st x).
    { destruct (negb _) in Hbody; [left; congruence |].
      destruct (all_blank _) in Hbody; [left; congruence |].
      right. eexists. injection Hbody as <-. reflexivity. }
    change (List.length (JObj kv :: rest)) with (S (List.length rest)).
    destruct Hstep as [-> | [x ->]]; cbn in *.
    + split; [lia |]. split; [lia |]. split; [lia |].
      exists added. split; [assumption |].
      rewrite Hadded. lia.
    + split; [lia |]. split; [lia |]. split; [lia |].
      exists (block x ++ added).
      split; [rewrite Hlines, app_assoc; reflexivity |].
      split.
      * intros E. apply app_eq_nil in E. destruct E as [E _].
        exfalso. exact (block_nonempty x E).
      * lia.
Qed.

(** The same from the initial state of the writer. *)
Lemma loop_totals (items : list json) (st : loop_state) :
  for_each items (LoopState [] 0 0) = Returns st ->
  processed_count st + skipped_count st = Z.of_nat (List.length items)
  /\ 0 <= processed_count st /\ 0 <= skipped_count st
  /\ (output_lines st <> [] <-> 0 < processed_count st).
Proof.
  intros Hrun.
  destruct (for_each_invariant _ _ _ Hrun)
    as (Hsum & Hp & Hs & added & Hlines & Hadded).
  cbn in *. subst added. repeat split; try lia.
  - intros Hne. destruct (Z.eq_dec (processed_count st) 0) as [E |]; [| lia].
    apply Hadded in E. congruence.
  - intros Hpos E. apply Hadded in E. lia.
Qed.

(** C9. After the loop over the items of a response, the processed count
    plus the skipped count is the number of items, and the accumulated
    output is non-empty if and only if the processed count is positive. *)
Theorem loop_accounts (items : list json) (st : loop_state) :
  for_each items (LoopState [] 0 0) = Returns st ->
  processed_count st + skipped_count st = Z.of_nat (List.length items)
  /\ (output_lines st <> [] <-> 0 < processed_count st).
Proof.
  intros Hrun. destruct (loop_totals items st Hrun) as (Hsum & _ & _ & Hout).
  split; assumption.
Qed.

(** The loop finishes exactly on a list of dicts. *)
Lemma for_each_total (items : list json) :
  Forall is_dictb items ->
  forall st, exists st', for_each items st = Returns st'.
Proof.
  induction 1 as [| c rest Hc _ IH]; intros st.
  - exists st. reflexivity.
  - destruct c; try discriminate.
    cbn [for_each]. rewrite loop_body_dict. cbn [obind]. apply IH.
Qed.

Lemma for_each_dicts (items : list json) :
  forall st st', for_each items st = Returns st' ->
                 Forall is_dictb items.
Proof.
  induction items as [| c rest IH]; intros st st' Hrun; [constructor |].
  cbn [for_each] in Hrun.
  destruct (loop_body c st) as [st1 |] eqn:Hbody; [| discriminate].
  constructor.
  - destruct (loop_body_returns _ _ _ Hbody) as [kv ->]. reflexivity.
  - exact (IH _ _ Hrun).
Qed.

End Loop.

(** *** Text that can be written *)

Lemma all_ascii_sound (s : pystr) : all_ascii s = true -> Forall is_ascii s.
Proof.
  intros H. apply Forall_forall. intros c Hc.
  apply (proj1 (forallb_forall _ _) H) in Hc. unfold is_ascii. lia.
Qed.

Lemma utf8_encode_app (a b : pystr) :
  utf8_encode (a ++ b)
  = match utf8_encode a, utf8_encode b with
    | Some x, Some y => Some (x ++ y)
    | _, _ => None
    end.
Proof.
  induction a as [| c a IH]; cbn [app utf8_encode].
  - destruct (utf8_encode b); reflexivity.
  - rewrite IH. destruct (utf8_char c) as [x |]; [| reflexivity].
    destruct (utf8_encode a) as [xs |]; [| reflexivity].
    destruct (utf8_encode b) as [ys |]; [| reflexivity].
    rewrite app_assoc. reflexivity.
Qed.

Lemma encodable_app (a b : pystr) :
  encodable (a ++ b) <-> encodable a /\ encodable b.
Proof.
  unfold encodable. rewrite utf8_encode_app.
  destruct (utf8_encode a), (utf8_encode b); intuition congruence.
Qed.

Lemma encodable_ascii (s : pystr) : Forall is_ascii s -> encodable s.
Proof. intros H. unfold encodable. rewrite utf8_encode_ascii; congruence. Qed.

Lemma encodable_lit (s : string) : all_ascii (lit s) = true -> encodable (lit s).
Proof. intros H. apply encodable_ascii, all_ascii_sound, H. Qed.

Lemma encodable_join (sep : pystr) (parts : list pystr) :
  encodable sep -> Forall encodable parts -> encodable (join sep parts).
Proof.
  intros Hsep. induction 1 as [| p rest Hp Hrest IH].
  - discriminate.
  - cbn [join]. destruct rest as [| q rest']; [exact Hp |].
    apply encodable_app. split; [exact Hp |].
    apply encodable_app. split; [exact Hsep | exact IH].
Qed.

Lemma digits_ascii (d : Decimal.uint) :
  Forall is_ascii (lit (NilEmpty.string_of_uint d)).
Proof.
  induction d; cbn; constructor; try assumption; unfold is_ascii; lia.
Qed.

Lemma str_of_int_ascii (n : Z) : Forall is_ascii (str_of_int n).
Proof.
  unfold str_of_int, NilZero.string_of_int.
  assert (H : forall d, Forall is_ascii (lit (NilZero.string_of_uint d))).
  { intros d. unfold NilZero.string_of_uint.
    destruct d; try apply digits_ascii.
    cbn. constructor; [unfold is_ascii; lia | constructor]. }
  destruct (Z.to_int n) as [d | d]; [apply H |].
  change (lit (String "-" (NilZero.string_of_uint d)))
    with (45 :: lit (NilZero.string_of_uint d)).
  constructor; [unfold is_ascii; lia | apply H].
Qed.

Lemma encodable_counts_line (received skipped : Z) :
  encodable (counts_line received skipped).
Proof.
  unfold counts_line.
  repeat (apply encodable_app; split);
    first [ apply encodable_lit; reflexivity
          | apply encodable_ascii, str_of_int_ascii
          | apply encodable_ascii; repeat constructor; unfold is_ascii; lia ].
Qed.

Lemma encodable_no_data_message (location : pystr) (codes : list pystr) :
  encodable location -> Forall encodable codes ->
  encodable (no_data_message location codes).
Proof.
  intros Hl Hc. unfold no_data_message.
  repeat (apply encodable_app; split);
    first [ apply encodable_lit; reflexivity
          | exact Hl
          | apply encodable_join; [apply encodable_lit; reflexivity | exact Hc]
          | apply encodable_ascii; repeat constructor; unfold is_ascii; lia ].
Qed.

Lemma encodable_all_skipped_message (location : pystr) (codes : list pystr) :
  encodable location -> Forall encodable codes ->
  encodable (all_skipped_message location codes).
Proof.
  intros Hl Hc. unfold all_skipped_message.
  repeat (apply encodable_app; split);
    first [ apply encodable_lit; reflexivity
          | exact Hl
          | apply encodable_join; [apply encodable_lit; reflexivity | exact Hc]
          | apply encodable_ascii; repeat constructor; unfold is_ascii; lia ].
Qed.

(** *** The file store *)

Lemma lookup_filter_other (fs : list (pystr * pystr)) (n n' : pystr) :
  n' <> n ->
  lookup_file (filter (fun p => negb (str_eqb (fst p) n)) fs) n'
  = lookup_file fs n'.
Proof.
  intros Hne. induction fs as [| [m c] fs IH]; [reflexivity |].
  cbn [filter fst lookup_file].
  destruct (str_eqb m n) eqn:Emn; cbn [negb lookup_file].
  - apply str_eqb_eq in Emn. subst m.
    replace (str_eqb n n') with false
      by (symmetry; apply str_eqb_neq; congruence).
    exact IH.
  - rewrite IH. reflexivity.
Qed.

Lemma lookup_set_same (fs : list (pystr * pystr)) (n c : pystr) :
  lookup_file (set_file n c fs) n = Some c.
Proof. unfold set_file. cbn [lookup_file]. rewrite str_eqb_refl. reflexivity. Qed.

Lemma lookup_set_other (fs : list (pystr * pystr)) (n n' c : pystr) :
  n' <> n -> lookup_file (set_file n c fs) n' = lookup_file fs n'.
Proof.
  intros Hne. unfold set_file. cbn [lookup_file].
  replace (str_eqb n n') with false
    by (symmetry; apply str_eqb_neq; congruence).
  apply lookup_filter_other. assumption.
Qed.

Lemma set_file_twice (fs : list (pystr * pystr)) (n c c' : pystr) :
  set_file n c (set_file n c' fs) = set_file n c fs.
Proof.
  unfold set_file. f_equal. cbn [filter fst].
  rewrite str_eqb_refl. cbn [negb].
  induction fs as [| [m d] fs IH]; [reflexivity |].
  cbn [filter fst]. destruct (str_eqb m n) eqn:E; cbn [negb filter fst].
  - exact IH.
  - rewrite E. cbn [negb]. rewrite IH. reflexivity.
Qed.

Lemma no_items_dict (kv : list (pystr * json)) (v : json) :
  dict_get kv (lit "items") = Some v ->
  no_items (JObj kv) = Returns (negb (truthy v)).
Proof.
  intros H. unfold no_items.
  destruct kv as [| p kv']; [discriminate |].
  cbn [truthy is_nil negb py_in py_subscript obind]. rewrite H.
  reflexivity.
Qed.

Lemma no_items_dict_missing (kv : list (pystr * json)) :
  dict_get kv (lit "items") = None -> no_items (JObj kv) = Returns true.
Proof.
  intros H. unfold no_items.
  destruct kv as [| p kv']; [reflexivity |].
  cbn [truthy is_nil negb py_in py_subscript obind]. rewrite H.
  reflexivity.
Qed.

Lemma bind_lift_returns {A B : Type} (a : A) (k : A -> M B) :
  bind (lift (Returns a)) k = k a.
Proof. reflexivity. Qed.

Lemma bind_lift_raises {A B : Type} (e : exc) (k : A -> M B) :
  bind (lift (Raises e)) k = raise e.
Proof. reflexivity. Qed.

Lemma int_lt_raises (n : Z) (v : json) (e : exc) :
  int_lt n v = Raises e -> kind e = KTypeError.
Proof.
  destruct v as [| b | m | [| s | num den] | s | l | kv]; cbn;
    try discriminate; intros [= <-]; reflexivity.
Qed.

Lemma type_error_not_io (e : exc) :
  kind e = KTypeError -> isinstance e CIOError = false.
Proof. intros H. unfold isinstance. rewrite H. reflexivity. Qed.

(** *** Runs of the writer *)

Section WriterBlocks.
Context {rt : Runtime}.
Variable sys : system.

Lemma writer_blocks_run (kv : list (pystr * json)) (its : list json)
  (st : loop_state) (location first_code : pystr) (rest : list pystr)
  (w : world) :
  dict_get kv (lit "items") = Some (JList its) ->
  its <> [] ->
  for_each its (LoopState [] 0 0) = Returns st ->
  0 < processed_count st ->
  let name := output_filename_of location first_code in
  open_error sys name = None ->
  let api_hits := get_or kv "hits" (JStr (lit "N/A")) in
  let w1 := World (set_file name (join newline (output_lines st)) (files w))
              (stdout w ++ report_lines name st api_hits) in
  format_and_save_addresses sys (JObj kv) location (first_code :: rest) w
  = match utf8_encode (join newline (output_lines st)) with
    | None => (Raises encode_error,
               World (set_file name [] (files w)) (stdout w))
    | Some _ =>
        match int_lt (Z.of_nat (List.length its)) api_hits with
        | Returns true =>
            (Returns tt,
             World (files w1) (stdout w1 ++ [partial_note; pagination_note]))
        | Returns false => (Returns tt, w1)
        | Raises e => (Raises e, w1)
        end
    end.
Proof.
  intros Hitems Hne Hloop Hpos name Hopen api_hits w1.
  subst name. unfold format_and_save_addresses.
  rewrite (no_items_dict kv _ Hitems).
  destruct its as [| it its']; [congruence |].
  cbn [truthy is_nil negb py_subscript py_iter].
  rewrite Hitems.
  rewrite bind_lift_returns. cbv beta iota.
  rewrite bind_lift_returns. cbn [py_iter].
  rewrite bind_lift_returns, Hloop, bind_lift_returns.
  replace (processed_count st =? 0) with false
    by (symmetry; apply Z.eqb_neq; lia).
  rewrite andb_false_r.
  unfold items_len. cbn [py_get obind]. rewrite Hitems. cbn [py_len].
  fold (get_or kv "hits" (JStr (lit "N/A"))). fold api_hits.
  unfold try_except, bind, lift, open_w, f_write, print, ret, read_file.
  rewrite Hopen.
  destruct (utf8_encode (join newline (output_lines st))); [| reflexivity].
  cbn [files stdout]. rewrite lookup_set_same. cbn [app].
  rewrite set_file_twice.
  subst w1. unfold report_lines.
  destruct (0 <? skipped_count st);
    destruct (int_lt (Z.of_nat (List.length (it :: its'))) api_hits)
      as [[|] | e] eqn:Elt;
    cbn [files stdout];
    repeat rewrite <- app_assoc; cbn [app]; try reflexivity;
    rewrite (type_error_not_io e (int_lt_raises _ _ _ Elt)); reflexivity.
Qed.

End WriterBlocks.

Section WriterMessages.
Context {rt : Runtime}.
Variable sys : system.

(** The writer on a response without items: the file holds the message. *)
Lemma writer_no_items_run (data : json) (location first_code : pystr)
  (rest : list pystr) (w : world) :
  no_items data = Returns true ->
  let name := output_filename_of location first_code in
  let codes := first_code :: rest in
  open_error sys name = None ->
  let w0 := World (files w)
              (stdout w
               ++ [lit "No company items found in the data or 'items' is empty for "
                   ++ location ++ lit " / " ++ join (lit ", ") codes
                   ++ lit "."]) in
  format_and_save_addresses sys data location codes w
  = match utf8_encode (no_data_message location codes) with
    | None => (Raises encode_error,
               World (set_file name [] (files w)) (stdout w0))
    | Some _ =>
        (Returns tt,
         World (set_file name (no_data_message location codes) (files w))
           (stdout w0
            ++ [lit "Output file '" ++ name
                ++ lit "' created with no data message."]))
    end.
Proof.
  intros Hno name codes Hopen w0.
  subst name codes w0. unfold format_and_save_addresses.
  rewrite Hno, bind_lift_returns. cbv beta iota.
  unfold try_except, bind, lift, open_w, f_write, print, ret, read_file.
  rewrite Hopen.
  destruct (utf8_encode (no_data_message location (first_code :: rest)));
    [| reflexivity].
  cbn [files stdout]. rewrite lookup_set_same, set_file_twice. cbn [app].
  reflexivity.
Qed.

(** The writer on a page whose every item was skipped. *)
Lemma writer_all_skipped_run (kv : list (pystr * json)) (its : list json)
  (st : loop_state) (location first_code : pystr) (rest : list pystr)
  (w : world) :
  dict_get kv (lit "items") = Some (JList its) ->
  its <> [] ->
  for_each its (LoopState [] 0 0) = Returns st ->
  processed_count st = 0 ->
  let name := output_filename_of location first_code in
  let codes := first_code :: rest in
  open_error sys name = None ->
  let w0 := World (files w)
              (stdout w
               ++ [lit "All records were skipped due to missing address information for "
                   ++ location ++ lit " / " ++ join (lit ", ") codes
                   ++ lit "."]) in
  format_and_save_addresses sys (JObj kv) location codes w
  = match utf8_encode (all_skipped_message location codes) with
    | None => (Raises encode_error,
               World (set_file name [] (files w)) (stdout w0))
    | Some _ =>
        (Returns tt,
         World (set_file name
                  (all_skipped_message location codes
                   ++ counts_line (Z.of_nat (List.length its))
                        (skipped_count st))
                  (files w))
           (stdout w0
            ++ [lit "Output file '" ++ name
                ++ lit "' created indicating all records skipped."]))
    end.
Proof.
  intros Hitems Hne Hloop Hzero name codes Hopen w0.
  assert (Hlines : output_lines st = []).
  { destruct (loop_totals its st Hloop) as (_ & _ & _ & Hiff).
    destruct (output_lines st) as [| l ls]; [reflexivity |].
    assert (0 < processed_count st) by (apply Hiff; discriminate). lia. }
  subst name codes w0. unfold format_and_save_addresses.
  rewrite (no_items_dict kv _ Hitems).
  destruct its as [| it its']; [congruence |].
  cbn [truthy is_nil negb py_subscript py_iter].
  rewrite Hitems.
  rewrite bind_lift_returns. cbv beta iota.
  rewrite bind_lift_returns. cbn [py_iter].
  rewrite bind_lift_returns, Hloop, bind_lift_returns.
  rewrite Hlines, Hzero. cbn [is_nil andb Z.eqb].
  unfold items_len. cbn [py_get obind]. rewrite Hitems. cbn [py_len].
  unfold try_except, bind, lift, open_w, f_write, print, ret, read_file.
  rewrite Hopen.
  destruct (utf8_encode (all_skipped_message location (first_code :: rest)));
    [| reflexivity].
  pose proof (encodable_counts_line
                (Z.of_nat (List.length (it :: its'))) (skipped_count st))
    as Hcounts.
  unfold encodable in Hcounts.
  destruct (utf8_encode (counts_line _ _)); [| congruence].
  cbn [files stdout].
  rewrite lookup_set_same, set_file_twice. cbn [files stdout].
  rewrite lookup_set_same, set_file_twice. cbn [app].
  reflexivity.
Qed.

Lemma touches_ret {A : Type} (name : pystr) (a : A) :
  touches_only name (ret a).
Proof. intros w r w' [= _ <-] n _. reflexivity. Qed.

Lemma touches_lift {A : Type} (name : pystr) (o : outcome A) :
  touches_only name (lift o).
Proof. intros w r w' [= _ <-] n _. reflexivity. Qed.

Lemma touches_print (name line : pystr) : touches_only name (print line).
Proof. intros w r w' [= _ <-] n _. reflexivity. Qed.

Lemma touches_bind {A B : Type} (name : pystr) (m : M A) (k : A -> M B) :
  touches_only name m -> (forall a, touches_only name (k a)) ->
  touches_only name (bind m k).
Proof.
  intros Hm Hk w r w' Hrun n Hn. unfold bind in Hrun.
  destruct (m w) as [[a | e] w1] eqn:Em.
  - rewrite (Hk a w1 r w' Hrun n Hn). exact (Hm w _ w1 Em n Hn).
  - injection Hrun as _ <-. exact (Hm w _ w1 Em n Hn).
Qed.

Lemma touches_try {A : Type} (name : pystr) (m : M A) (c : exc_class)
  (h : exc -> M A) :
  touches_only name m -> (forall e, touches_only name (h e)) ->
  touches_only name (try_except m c h).
Proof.
  intros Hm Hh w r w' Hrun n Hn. unfold try_except in Hrun.
  destruct (m w) as [[a | e] w1] eqn:Em.
  - injection Hrun as _ <-. exact (Hm w _ w1 Em n Hn).
  - destruct (isinstance e c).
    + rewrite (Hh e w1 r w' Hrun n Hn). exact (Hm w _ w1 Em n Hn).
    + injection Hrun as _ <-. exact (Hm w _ w1 Em n Hn).
Qed.

Lemma touches_open (name : pystr) : touches_only name (open_w sys name).
Proof.
  intros w r w' Hrun n Hn. unfold open_w in Hrun.
  destruct (open_error sys name); injection Hrun as _ <-; [reflexivity |].
  apply lookup_set_other. assumption.
Qed.

Lemma touches_write (name chunk : pystr) :
  touches_only name (f_write name chunk).
Proof.
  intros w r w' Hrun n Hn. unfold f_write in Hrun.
  destruct (utf8_encode chunk); injection Hrun as _ <-; [| reflexivity].
  apply lookup_set_other. assumption.
Qed.

Lemma writer_touches_only (data : json) (location first_code : pystr)
  (rest : list pystr) :
  touches_only (output_filename_of location first_code)
    (format_and_save_addresses sys data location (first_code :: rest)).
Proof.
  unfold format_and_save_addresses, write_error.
  repeat first
    [ apply touches_bind; [| intros ?]
    | apply touches_try; [| intros ?]
    | apply touches_lift | apply touches_print | apply touches_ret
    | apply touches_open | apply touches_write
    | match goal with
      | |- touches_only _ (if ?b then _ else _) => destruct b
      end ].
Qed.

End WriterMessages.

(** *** Splitting and joining the codes *)

Lemma split_no_sep (c : Z) (s : pystr) : ~ In c s -> split c s = [s].
Proof.
  induction s as [| x s IH]; intros Hn; [reflexivity |].
  cbn [split]. destruct (Z.eqb_spec x c) as [-> | Hne].
  - exfalso. apply Hn. left. reflexivity.
  - rewrite IH; [reflexivity |]. intros Hin. apply Hn. right. exact Hin.
Qed.

Lemma split_app_sep (c : Z) (a b : pystr) :
  ~ In c a -> split c (a ++ c :: b) = a :: split c b.
Proof.
  induction a as [| x a IH]; intros Hn.
  - cbn [app split]. rewrite Z.eqb_refl. reflexivity.
  - cbn [app split]. destruct (Z.eqb_spec x c) as [-> | Hne].
    + exfalso. apply Hn. left. reflexivity.
    + rewrite IH; [reflexivity |]. intros Hin. apply Hn. right. exact Hin.
Qed.

Lemma split_join (c : Z) (parts : list pystr) :
  parts <> [] -> Forall (fun p => ~ In c p) parts ->
  split c (join [c] parts) = parts.
Proof.
  intros Hne Hall. revert Hne.
  induction Hall as [| p rest Hp Hrest IH]; intros Hne;
    [exfalso; apply Hne; reflexivity |].
  cbn [join]. destruct rest as [| q rest'].
  - apply split_no_sep. exact Hp.
  - cbn [app]. rewrite split_app_sep by exact Hp.
    rewrite IH by discriminate. reflexivity.
Qed.

Lemma split_pieces (c : Z) (s : pystr) :
  Forall (fun p => ~ In c p) (split c s).
Proof.
  induction s as [| x s IH]; cbn [split].
  - constructor; [intros [] | constructor].
  - destruct (Z.eqb_spec x c) as [-> | Hne].
    + constructor; [intros [] | exact IH].
    + destruct (split c s) as [| w ws].
      * constructor; [| constructor]. intros [E | []]. congruence.
      * inversion IH as [| ? ? Hw Hws]; subst.
        constructor; [| exact Hws]. intros [E | Hin]; [congruence | tauto].
Qed.

Lemma lstrip_incl (s : pystr) (x : Z) : In x (lstrip s) -> In x s.
Proof.
  induction s as [| c s IH]; cbn [lstrip]; [tauto |].
  destruct (isspace c); [right; apply IH; assumption | tauto].
Qed.

Lemma strip_incl (s : pystr) (x : Z) : In x (strip s) -> In x s.
Proof.
  unfold strip, rstrip. intros H.
  apply in_rev, lstrip_incl, in_rev in H. apply lstrip_incl. exact H.
Qed.

Lemma clean_codes_spec (s : pystr) :
  Forall (fun code => ~ In 44 code /\ code <> []) (clean_codes s).
Proof.
  unfold clean_codes. apply Forall_forall. intros code Hin.
  apply in_map_iff in Hin. destruct Hin as (raw & <- & Hraw).
  apply filter_In in Hraw. destruct Hraw as [Hraw Hkeep]. split.
  - intros Hc. apply strip_incl in Hc.
    exact (proj1 (Forall_forall _ _) (split_pieces 44 s) raw Hraw Hc).
  - intros E. rewrite E in Hkeep. discriminate.
Qed.

(** *** The fetcher and the entry point *)

Section Main.
Context {rt : Runtime}.
Variable sys : system.

Lemma raise_for_status_ok (r : response) :
  ~ (400 <= status_code r < 600) -> raise_for_status r = Returns tt.
Proof.
  intros H. unfold raise_for_status.
  destruct (Z.leb_spec 400 (status_code r)), (Z.ltb_spec (status_code r) 500);
    cbn [andb]; try lia;
    destruct (Z.leb_spec 500 (status_code r)),
      (Z.ltb_spec (status_code r) 600); cbn [andb]; try lia; reflexivity.
Qed.

(** A fetch that succeeds returns the decoded body as it is. *)
Lemma fetch_returns (key location header : pystr) (codes : list pystr)
  (r : response) (data : json) (w : world) :
  authorization key = Returns header ->
  http_get sys (request_url location codes) header = Responds r ->
  ~ (400 <= status_code r < 600) ->
  decoded r = inr data ->
  fetch_company_data sys key location codes w
  = (Returns data, announced location codes w).
Proof.
  intros Hauth Hget Hstatus Hbody.
  unfold fetch_company_data. rewrite Hauth, bind_lift_returns.
  unfold bind, print. rewrite Hget, (raise_for_status_ok r Hstatus).
  cbn [obind]. unfold response_json. rewrite Hbody. reflexivity.
Qed.

(** A body that does not decode, by the installed requests. *)
Lemma fetch_undecodable (key location header msg : pystr)
  (codes : list pystr) (r : response) (w : world) :
  authorization key = Returns header ->
  http_get sys (request_url location codes) header = Responds r ->
  ~ (400 <= status_code r < 600) ->
  decoded r = inl msg ->
  fetch_company_data sys key location codes w
  = (Returns JNull,
     World (files w)
       (stdout (announced location codes w)
        ++ (if requests_wraps_json_errors
            then [lit "An unexpected request error occurred: " ++ msg]
            else [lit "Failed to decode JSON from response.";
                  lit "Response text: " ++ text r]))).
Proof.
  intros Hauth Hget Hstatus Hbody.
  unfold fetch_company_data. rewrite Hauth, bind_lift_returns.
  unfold bind at 1. unfold print at 1.
  rewrite Hget, (raise_for_status_ok r Hstatus).
  cbn [obind]. unfold response_json. rewrite Hbody.
  unfold announced.
  destruct requests_wraps_json_errors; cbn; rewrite <- ?app_assoc;
    reflexivity.
Qed.

(** With its three settings in place, the entry point fetches and, on a
    truthy result, hands over to the writer. *)
Lemma main_configured (key location s : pystr) (codes : list pystr) :
  environ sys (lit "API_KEY") = Some key -> key <> [] ->
  environ sys (lit "LOCATION") = Some location -> location <> [] ->
  environ sys (lit "SIC_CODES") = Some s -> clean_codes s = codes ->
  codes <> [] ->
  main sys
  = (company_api_data <- fetch_company_data sys key location codes ;;
     if truthy company_api_data
     then format_and_save_addresses sys company_api_data location codes
     else print (lit "Could not retrieve or process company data. Please check previous error messages.")).
Proof.
  intros Hkey Hk Hloc Hl Hsic Hclean Hcodes.
  unfold main. rewrite Hkey, Hloc, Hsic. cbn [unset getenv_or_empty].
  destruct key; [congruence |]. destruct location; [congruence |].
  cbn [is_nil].
  assert (Hs : s <> []).
  { intros ->. apply Hcodes. rewrite <- Hclean. reflexivity. }
  destruct s; [congruence |]. cbn [is_nil]. rewrite Hclean.
  destruct codes; [congruence |]. reflexivity.
Qed.

End Main.

(** *** The writer's report and diagnostics *)

Section Report.
Context {rt : Runtime}.
Variable sys : system.

Lemma report_lines_no_note (name : pystr) (st : loop_state) (hits : json) :
  ~ In partial_note (report_lines name st hits).
Proof.
  unfold report_lines. intros H.
  repeat (apply in_app_or in H; destruct H as [H | H]);
    try (destruct (0 <? skipped_count st));
    cbn [In] in H;
    repeat match goal with
      | H : _ \/ _ |- _ => destruct H as [H | H]
      | H : False |- _ => destruct H
      | H : _ = partial_note |- _ =>
          apply (f_equal (hd 0)) in H; cbn in H; discriminate H
      end.
Qed.

(** C8. For every response whose items list is non-empty and whose hits
    field is an integer, once the loop produced at least one block and the
    file was written, the writer returns and has printed the partial-results
    note if and only if the number of items is strictly less than the
    reported hits. *)
Theorem partial_note_printed (kv : list (pystr * json)) (its : list json)
  (st : loop_state) (location first_code : pystr) (rest : list pystr)
  (hits : Z) (w : world) :
  dict_get kv (lit "items") = Some (JList its) ->
  its <> [] ->
  dict_get kv (lit "hits") = Some (JInt hits) ->
  for_each its (LoopState [] 0 0) = Returns st ->
  0 < processed_count st ->
  open_error sys (output_filename_of location first_code) = None ->
  encodable (join newline (output_lines st)) ->
  exists printed w',
    format_and_save_addresses sys (JObj kv) location (first_code :: rest) w
    = (Returns tt, w')
    /\ read_file w' (output_filename_of location first_code)
       = Some (join newline (output_lines st))
    /\ stdout w' = stdout w ++ printed
    /\ (In partial_note printed <-> Z.of_nat (List.length its) < hits).
Proof.
  intros Hitems Hne Hhits Hloop Hpos Hopen Henc.
  pose proof (writer_blocks_run sys kv its st location first_code rest w
                Hitems Hne Hloop Hpos Hopen) as Hrun.
  cbv zeta in Hrun. unfold encodable in Henc.
  destruct (utf8_encode (join newline (output_lines st))); [| congruence].
  unfold get_or in Hrun. rewrite Hhits in Hrun. cbn [int_lt] in Hrun.
  set (name := output_filename_of location first_code) in *.
  destruct (Z.ltb_spec (Z.of_nat (List.length its)) hits) as [Hlt | Hge].
  - eexists (report_lines name st (JInt hits)
             ++ [partial_note; pagination_note]), _.
    split; [exact Hrun |]. cbn [files stdout read_file].
    split; [apply lookup_set_same |].
    split; [rewrite app_assoc; reflexivity |].
    split; [intros _; exact Hlt |].
    intros _. apply in_or_app. right. left. reflexivity.
  - eexists (report_lines name st (JInt hits)), _.
    split; [exact Hrun |]. cbn [files stdout read_file].
    split; [apply lookup_set_same |].
    split; [reflexivity |].
    split; [| lia].
    intros Hin. exfalso. exact (report_lines_no_note _ _ _ Hin).
Qed.

Lemma loop_processed_nonempty (its : list json) (st : loop_state) :
  for_each its (LoopState [] 0 0) = Returns st ->
  0 < processed_count st -> its <> [].
Proof.
  intros Hloop Hpos ->. cbn in Hloop. injection Hloop as <-. cbn in Hpos. lia.
Qed.

(** C10. For every response that yields at least one processed company
    but has no ["hits"] field, once the report file is written the
    diagnostics compare the item count with the default string ["N/A"]:
    the comparison raises a [TypeError], which the [except IOError] clause
    does not catch, so the writer raises although the file holds the
    report. *)
Theorem missing_hits_type_error (kv : list (pystr * json))
  (its : list json) (st : loop_state) (location first_code : pystr)
  (rest : list pystr) (w : world) :
  dict_get kv (lit "items") = Some (JList its) ->
  dict_get kv (lit "hits") = None ->
  for_each its (LoopState [] 0 0) = Returns st ->
  0 < processed_count st ->
  open_error sys (output_filename_of location first_code) = None ->
  encodable (join newline (output_lines st)) ->
  exists e w',
    format_and_save_addresses sys (JObj kv) location (first_code :: rest) w
    = (Raises e, w')
    /\ kind e = KTypeError
    /\ int_lt (Z.of_nat (List.length its)) (JStr (lit "N/A")) = Raises e
    /\ isinstance e CIOError = false
    /\ read_file w' (output_filename_of location first_code)
       = Some (join newline (output_lines st))
    /\ stdout w'
       = stdout w
         ++ report_lines (output_filename_of location first_code) st
              (JStr (lit "N/A")).
Proof.
  intros Hitems Hhits Hloop Hpos Hopen Henc.
  pose proof (writer_blocks_run sys kv its st location first_code rest w
                Hitems (loop_processed_nonempty its st Hloop Hpos)
                Hloop Hpos Hopen) as Hrun.
  cbv zeta in Hrun. unfold encodable in Henc.
  destruct (utf8_encode (join newline (output_lines st))); [| congruence].
  unfold get_or in Hrun. rewrite Hhits in Hrun. cbn [int_lt] in Hrun.
  eexists _, _. split; [exact Hrun |].
  split; [reflexivity |]. split; [reflexivity |]. split; [reflexivity |].
  cbn [files stdout read_file].
  split; [apply lookup_set_same | reflexivity].
Qed.

(** C1, as the code has it. For every run in which the fetch succeeds with
    a non-empty JSON object whose items are absent, falsy or a list of
    dicts, and in which the output file can be opened, the output file
    exists afterwards. With no items it holds the no-data message; with
    every item skipped it holds the all-skipped message and the counts;
    otherwise it holds the blocks (each time provided the text has a UTF-8
    encoding). *)
Theorem report_file_written (key location s first_code header : pystr)
  (rest : list pystr) (r : response) (kv : list (pystr * json)) (w : world) :
  let codes := first_code :: rest in
  let name := output_filename_of location first_code in
  let items := get_or kv "items" JNull in
  environ sys (lit "API_KEY") = Some key -> key <> [] ->
  environ sys (lit "LOCATION") = Some location -> location <> [] ->
  environ sys (lit "SIC_CODES") = Some s -> clean_codes s = codes ->
  authorization key = Returns header ->
  http_get sys (request_url location codes) header = Responds r ->
  200 <= status_code r < 300 ->
  decoded r = inr (JObj kv) -> kv <> [] ->
  (truthy items = false
   \/ exists its, items = JList its /\ Forall is_dictb its) ->
  open_error sys name = None ->
  exists result w' content,
    main sys w = (result, w')
    /\ read_file w' name = Some content
    /\ (truthy items = false ->
        encodable (no_data_message location codes) ->
        result = Returns tt /\ content = no_data_message location codes)
    /\ (forall its st,
          items = JList its -> its <> [] ->
          for_each its (LoopState [] 0 0) = Returns st ->
          processed_count st = 0 ->
          encodable (all_skipped_message location codes) ->
          result = Returns tt
          /\ content
             = all_skipped_message location codes
               ++ counts_line (Z.of_nat (List.length its)) (skipped_count st))
    /\ (forall its st,
          items = JList its ->
          for_each its (LoopState [] 0 0) = Returns st ->
          0 < processed_count st ->
          encodable (join newline (output_lines st)) ->
          content = join newline (output_lines st)).
Proof.
  intros codes name items Hkey Hk Hloc Hl Hsic Hclean Hauth Hget Hstatus
    Hbody Hkv Hitems Hopen.
  assert (Hcodes : codes <> []) by (subst codes; discriminate).
  rewrite (main_configured sys key location s codes
             Hkey Hk Hloc Hl Hsic Hclean Hcodes).
  unfold bind.
  rewrite (fetch_returns sys key location header codes r (JObj kv) w
             Hauth Hget ltac:(lia) Hbody).
  replace (truthy (JObj kv)) with true
    by (destruct kv; [congruence | reflexivity]).
  set (w0 := announced location codes w).
  destruct (truthy items) eqn:Htruthy.
  - (* a page with items *)
    destruct Hitems as [Hfalse | (its & Eits & Hdicts)]; [discriminate |].
    assert (Hget_items : dict_get kv (lit "items") = Some (JList its)).
    { subst items. unfold get_or in Eits.
      destruct (dict_get kv (lit "items")); [congruence | discriminate]. }
    assert (Hne : its <> []).
    { intros ->. rewrite Eits in Htruthy. discriminate. }
    destruct (for_each_total its Hdicts (LoopState [] 0 0)) as [st Hloop].
    destruct (loop_totals its st Hloop) as (_ & Hp & _ & _).
    assert (Hsame : forall its' st',
               items = JList its' ->
               for_each its' (LoopState [] 0 0) = Returns st' ->
               its' = its /\ st' = st).
    { intros its' st' E1 E2. rewrite Eits in E1. injection E1 as <-.
      rewrite Hloop in E2. injection E2 as <-. tauto. }
    destruct (Z.eq_dec (processed_count st) 0) as [Hzero | Hnz].
    + pose proof (writer_all_skipped_run sys kv its st location first_code
                    rest w0 Hget_items Hne Hloop Hzero Hopen) as Hrun.
      cbv zeta in Hrun. fold codes name in Hrun.
      destruct (utf8_encode (all_skipped_message location codes)) eqn:Eenc;
        eexists _, _, _; (split; [exact Hrun |]);
        (split; [apply lookup_set_same |]);
        (split; [intros; discriminate |]); split.
      * intros its' st' E1 _ E2 _ _.
        destruct (Hsame its' st' E1 E2) as [-> ->]. tauto.
      * intros its' st' E1 E2 Hpos _.
        destruct (Hsame its' st' E1 E2) as [-> ->]. lia.
      * intros its' st' E1 _ E2 _ Henc. unfold encodable in Henc. congruence.
      * intros its' st' E1 E2 Hpos _.
        destruct (Hsame its' st' E1 E2) as [-> ->]. lia.
    + assert (Hpos : 0 < processed_count st) by lia.
      pose proof (writer_blocks_run sys kv its st location first_code rest
                    w0 Hget_items Hne Hloop Hpos Hopen) as Hrun.
      cbv zeta in Hrun. fold codes name in Hrun.
      destruct (utf8_encode (join newline (output_lines st))) eqn:Eenc;
        [destruct (int_lt _ _) as [[|] | e] in Hrun |];
        eexists _, _, _; (split; [exact Hrun |]);
        (split; [apply lookup_set_same |]);
        (split; [intros; discriminate |]); split;
        try (intros its' st' E1 _ E2 Hz _;
             destruct (Hsame its' st' E1 E2) as [-> ->]; lia);
        intros its' st' E1 E2 _ Henc;
        destruct (Hsame its' st' E1 E2) as [-> ->];
        first [reflexivity | unfold encodable in Henc; congruence].
  - (* no items *)
    assert (Hno : no_items (JObj kv) = Returns true).
    { subst items. unfold get_or in Htruthy.
      destruct (dict_get kv (lit "items")) as [v |] eqn:Ev.
      - rewrite (no_items_dict kv v Ev), Htruthy. reflexivity.
      - apply no_items_dict_missing. exact Ev. }
    pose proof (writer_no_items_run sys (JObj kv) location first_code rest
                  w0 Hno Hopen) as Hrun.
    cbv zeta in Hrun. fold codes name in Hrun.
    assert (Hnot : forall its st,
               items = JList its ->
               for_each its (LoopState [] 0 0) = Returns st ->
               processed_count st = 0).
    { intros its st E Hloop. rewrite E in Htruthy.
      destruct its; [| discriminate]. cbn in Hloop.
      injection Hloop as <-. reflexivity. }
    destruct (utf8_encode (no_data_message location codes)) eqn:Eenc;
      eexists _, _, _; (split; [exact Hrun |]);
      (split; [apply lookup_set_same |]); split.
    + tauto.
    + split.
      * intros its st E Hne _ _ _. rewrite E in Htruthy.
        destruct its; [congruence | discriminate].
      * intros its st E Hloop Hpos _. rewrite (Hnot its st E Hloop) in Hpos. lia.
    + intros _ Henc. unfold encodable in Henc. congruence.
    + split.
      * intros its st E Hne _ _ _. rewrite E in Htruthy.
        destruct its; [congruence | discriminate].
      * intros its st E Hloop Hpos _. rewrite (Hnot its st E Hloop) in Hpos. lia.
Qed.

End Report.

(** *** The request and the file name *)

Section Request.
Context {rt : Runtime}.
Variable sys : system.

(** C4. For every credential (a string of Unicode scalar values), the
    Authorization header value is ["Basic "] followed by the base64 encoding
    of the UTF-8 bytes of the credential with a colon appended: the encoding
    decodes back to those bytes and has the padded length; for the
    credential ["abc"] the value is ["Basic YWJjOg=="]. *)
Theorem authorization_header (raw_api_key : pystr) :
  Forall is_scalar raw_api_key ->
  exists bytes,
    utf8_encode (raw_api_key ++ lit ":") = Some bytes
    /\ authorization raw_api_key = Returns (lit "Basic " ++ b64encode bytes)
    /\ b64decode (b64encode bytes) = Some bytes
    /\ List.length (b64encode bytes)
       = (4 * ((List.length bytes + 2) / 3))%nat
    /\ authorization (lit "abc") = Returns (lit "Basic YWJjOg==").
Proof.
  intros Hkey.
  assert (Hall : Forall is_scalar (raw_api_key ++ lit ":")).
  { apply Forall_app. split; [exact Hkey |].
    repeat constructor; cbn; lia. }
  destruct (utf8_encode_scalar _ Hall) as [bytes Hbytes].
  exists bytes. split; [exact Hbytes |].
  split.
  - unfold authorization. rewrite Hbytes.
    rewrite (utf8_decode_ascii _ (b64encode_ascii bytes)). reflexivity.
  - split; [apply b64decode_b64encode, (utf8_encode_bytes _ _ Hbytes) |].
    split; [apply b64encode_length | reflexivity].
Qed.

(** The request depends on the surroundings through [http_get] alone, asked
    at the constructed URL with the Authorization header. *)
Lemma fetch_request (other : system) (key location header : pystr)
  (codes : list pystr) :
  authorization key = Returns header ->
  http_get sys (request_url location codes) header
  = http_get other (request_url location codes) header ->
  fetch_company_data sys key location codes
  = fetch_company_data other key location codes.
Proof.
  intros Hauth Hsame. unfold fetch_company_data.
  rewrite Hauth, !bind_lift_returns. unfold bind, print.
  rewrite Hsame. reflexivity.
Qed.

(** C5. For every code list with at least one non-empty trimmed entry, the
    request URL is the base URL with the location, the fixed
    [company_status=active] and [size=500] parameters and, as [sic_codes],
    the codes joined by commas: splitting that parameter at the commas
    gives the codes back, each once and in input order. *)
Theorem request_url_codes (location sic_codes_input_str : pystr) :
  let codes := clean_codes sic_codes_input_str in
  codes <> [] ->
  request_url location codes
  = base_url ++ lit "?location=" ++ location
    ++ lit "&company_status=active&size=500&sic_codes="
    ++ join (lit ",") codes
  /\ split 44 (join (lit ",") codes) = codes
  /\ Forall (fun code => code <> []) codes.
Proof.
  intros codes Hne. pose proof (clean_codes_spec sic_codes_input_str) as Hspec.
  fold codes in Hspec.
  split; [reflexivity |]. split.
  - apply (split_join 44 codes Hne).
    eapply Forall_impl; [| exact Hspec]. cbv beta. tauto.
  - eapply Forall_impl; [| exact Hspec]. cbv beta. tauto.
Qed.

Lemma sanitize_nth (s : pystr) (i : nat) (c : Z) :
  nth_error s i = Some c ->
  nth_error (sanitize s) i = Some (if isalnum c then c else 95).
Proof.
  intros H. unfold sanitize. rewrite nth_error_map, H. reflexivity.
Qed.

(** C6. The output file name is [<safe_location>_<safe_first_code>.txt],
    where each safe string has the length of its source and, position by
    position, the source character when it is alphanumeric and an
    underscore otherwise; the name depends on the location and the first
    code only, and the writer changes no file but this one. *)
Theorem output_filename_spec (location first_code : pystr)
  (rest : list pystr) (data : json) (w : world) :
  let name := output_filename_of location first_code in
  name = sanitize location ++ lit "_" ++ sanitize first_code ++ lit ".txt"
  /\ List.length (sanitize location) = List.length location
  /\ List.length (sanitize first_code) = List.length first_code
  /\ (forall i c, nth_error location i = Some c ->
                  nth_error (sanitize location) i
                  = Some (if isalnum c then c else 95))
  /\ (forall i c, nth_error first_code i = Some c ->
                  nth_error (sanitize first_code) i
                  = Some (if isalnum c then c else 95))
  /\ (forall result w' other,
        format_and_save_addresses sys data location (first_code :: rest) w
        = (result, w') ->
        other <> name -> read_file w' other = read_file w other).
Proof.
  intros name. split; [reflexivity |].
  split; [apply length_map |]. split; [apply length_map |].
  split; [apply sanitize_nth |]. split; [apply sanitize_nth |].
  intros result w' other Hrun Hother.
  exact (writer_touches_only sys data location first_code rest w result w'
           Hrun other Hother).
Qed.

End Request.

(* ===================================================================== *)
(** ** Further properties of the code *)
(* ===================================================================== *)

(** *** More on the fetcher *)

Lemma only_prints_ret {A : Type} (a : A) : only_prints (ret a).
Proof.
  intros w r w' [= _ <-]. split; [reflexivity |].
  exists []. symmetry. apply app_nil_r.
Qed.

Lemma only_prints_raise {A : Type} (e : exc) : only_prints (@raise A e).
Proof.
  intros w r w' [= _ <-]. split; [reflexivity |].
  exists []. symmetry. apply app_nil_r.
Qed.

Lemma only_prints_lift {A : Type} (o : outcome A) : only_prints (lift o).
Proof.
  intros w r w' [= _ <-]. split; [reflexivity |].
  exists []. symmetry. apply app_nil_r.
Qed.

Lemma only_prints_print (line : pystr) : only_prints (print line).
Proof.
  intros w r w' [= _ <-]. split; [reflexivity |]. exists [line]. reflexivity.
Qed.

Lemma only_prints_bind {A B : Type} (m : M A) (k : A -> M B) :
  only_prints m -> (forall a, only_prints (k a)) -> only_prints (bind m k).
Proof.
  intros Hm Hk w r w' Hrun. unfold bind in Hrun.
  destruct (m w) as [[a | e] w1] eqn:Em.
  - destruct (Hm w _ w1 Em) as (F1 & p1 & S1).
    destruct (Hk a w1 r w' Hrun) as (F2 & p2 & S2).
    split; [congruence |]. exists (p1 ++ p2).
    rewrite S2, S1, app_assoc. reflexivity.
  - injection Hrun as _ <-. exact (Hm w _ w1 Em).
Qed.

Lemma only_prints_try {A : Type} (m : M A) (c : exc_class)
  (h : exc -> M A) :
  only_prints m -> (forall e, only_prints (h e)) ->
  only_prints (try_except m c h).
Proof.
  intros Hm Hh w r w' Hrun. unfold try_except in Hrun.
  destruct (m w) as [[a | e] w1] eqn:Em.
  - injection Hrun as _ <-. exact (Hm w _ w1 Em).
  - destruct (isinstance e c).
    + destruct (Hm w _ w1 Em) as (F1 & p1 & S1).
      destruct (Hh e w1 r w' Hrun) as (F2 & p2 & S2).
      split; [congruence |]. exists (p1 ++ p2).
      rewrite S2, S1, app_assoc. reflexivity.
    + injection Hrun as _ <-. exact (Hm w _ w1 Em).
Qed.

Ltac only_prints :=
  repeat first
    [ apply only_prints_bind; [| intros ?]
    | apply only_prints_try; [| intros ?]
    | apply only_prints_lift | apply only_prints_print | apply only_prints_ret
    | apply only_prints_raise
    | match goal with
      | |- only_prints (if ?b then _ else _) => destruct b
      | |- only_prints (match ?x with _ => _ end) => destruct x
      end ].

Section Fetcher.
Context {rt : Runtime}.
Variable sys : system.

Lemma fetch_only_prints (key location : pystr) (codes : list pystr) :
  only_prints (fetch_company_data sys key location codes).
Proof.
  unfold fetch_company_data, fetch_except, fetch_handler. only_prints.
Qed.

(** X1. The fetcher writes no file and erases no printed line, whatever the
    credential, the registry's answer or the failure. *)
Theorem fetcher_only_prints (key location : pystr) (codes : list pystr)
  (w : world) :
  let w' := snd (fetch_company_data sys key location codes w) in
  files w' = files w /\ exists printed, stdout w' = stdout w ++ printed.
Proof.
  cbv zeta.
  destruct (fetch_company_data sys key location codes w) as [r w'] eqn:E.
  exact (fetch_only_prints key location codes w r w' E).
Qed.

Lemma fetch_start (key location header : pystr) (codes : list pystr)
  (w : world) :
  authorization key = Returns header ->
  fetch_company_data sys key location codes w
  = match http_get sys (request_url location codes) header with
    | Fails e => fetch_except e None (announced location codes w)
    | Responds r =>
        match obind (raise_for_status r) (fun _ => response_json r) with
        | Returns v => (Returns v, announced location codes w)
        | Raises e => fetch_except e (Some r) (announced location codes w)
        end
    end.
Proof.
  intros Hauth. unfold fetch_company_data.
  rewrite Hauth. unfold bind at 1, lift at 1. unfold bind at 1, print at 1.
  fold (announced location codes w).
  destruct (http_get sys (request_url location codes) header) as [e | r];
    [reflexivity |].
  destruct (obind (raise_for_status r) (fun _ => response_json r));
    reflexivity.
Qed.

(** X2. An exception of requests raised by [requests.get] (a timeout, a
    connection error, any other [RequestException]; an [HTTPError] comes
    from [raise_for_status] only) never leaves the fetcher: it prints one
    diagnostic line, chosen by the first clause that accepts the exception
    (so a [ConnectTimeout], which is both a connection error and a timeout,
    is reported as a timeout), and returns [None]. *)
Theorem transport_failure_reported (key location header : pystr)
  (codes : list pystr) (e : exc) (w : world) :
  authorization key = Returns header ->
  http_get sys (request_url location codes) header = Fails e ->
  isinstance e CRequestException = true ->
  kind e <> KHTTPError ->
  fetch_company_data sys key location codes w
  = (Returns JNull,
     World (files w)
       (stdout w ++ [lit "Requesting URL: " ++ request_url location codes;
                     transport_diagnostic e])).
Proof.
  intros Hauth Hget Hreq Hhttp.
  rewrite (fetch_start key location header codes w Hauth), Hget.
  unfold fetch_except, first_clause, fetch_clauses, transport_diagnostic,
    announced.
  destruct e as [k msg]. cbn [kind] in Hhttp.
  destruct k; try discriminate Hreq; try congruence;
    cbn -[lit request_url]; rewrite <- app_assoc; reflexivity.
Qed.

(** X3. A response with a status from 400 to 599 is an HTTP error whatever
    its body: the fetcher prints the error, the status code and the body
    text, does not decode the body, and returns [None]. *)
Theorem http_error_reported (key location header : pystr)
  (codes : list pystr) (r : response) (w : world) :
  authorization key = Returns header ->
  http_get sys (request_url location codes) header = Responds r ->
  400 <= status_code r < 600 ->
  exists msg,
    raise_for_status r = Raises (Exc KHTTPError msg)
    /\ fetch_company_data sys key location codes w
       = (Returns JNull,
          World (files w)
            (stdout w
             ++ [lit "Requesting URL: " ++ request_url location codes;
                 lit "HTTP error occurred: " ++ msg;
                 lit "Response status code: " ++ str_of_int (status_code r);
                 lit "Response text: " ++ text r])).
Proof.
  intros Hauth Hget Hstatus.
  assert (Hraise : exists msg, raise_for_status r = Raises (Exc KHTTPError msg)).
  { unfold raise_for_status.
    destruct ((400 <=? status_code r) && (status_code r <? 500)) eqn:E4;
      [eauto |].
    destruct ((500 <=? status_code r) && (status_code r <? 600)) eqn:E5;
      [eauto |].
    exfalso. apply andb_false_iff in E4, E5. lia. }
  destruct Hraise as [msg Hraise]. exists msg. split; [exact Hraise |].
  rewrite (fetch_start key location header codes w Hauth), Hget, Hraise.
  cbn [obind]. unfold announced, fetch_except.
  cbn -[lit str_of_int request_url]. unfold ret.
  repeat rewrite <- app_assoc. reflexivity.
Qed.

(** X4. The fetcher returns data only from a response it decoded: whenever
    its result is not [None], the credential could be encoded, the registry
    answered the constructed URL with a status outside 400..599, and the
    result is the decoded body of that answer, unchanged. *)
Theorem fetched_data_is_the_body (key location : pystr)
  (codes : list pystr) (w w' : world) (data : json) :
  fetch_company_data sys key location codes w = (Returns data, w') ->
  data <> JNull ->
  exists header r,
    authorization key = Returns header
    /\ http_get sys (request_url location codes) header = Responds r
    /\ ~ (400 <= status_code r < 600)
    /\ decoded r = inr data
    /\ w' = announced location codes w.
Proof.
  intros Hrun Hdata.
  destruct (authorization key) as [header | e0] eqn:Hauth;
    [| unfold fetch_company_data in Hrun; rewrite Hauth in Hrun;
       discriminate Hrun].
  rewrite (fetch_start key location header codes w Hauth) in Hrun.
  assert (Hexc : forall e resp w0,
             fetch_except e resp w0 <> (Returns data, w')).
  { intros e resp w0 E. unfold fetch_except in E.
    destruct (first_clause fetch_clauses e) as [c |]; [| discriminate E].
    unfold bind in E. destruct (fetch_handler c e resp w0) as [[u | e'] w1];
      [| discriminate E].
    injection E as E _. congruence. }
  destruct (http_get sys (request_url location codes) header) as [e | r]
    eqn:Hget; [exfalso; exact (Hexc _ _ _ Hrun) |].
  exists header, r. split; [reflexivity |]. split; [exact Hget |].
  unfold raise_for_status in Hrun.
  destruct ((400 <=? status_code r) && (status_code r <? 500)) eqn:E4;
    [exfalso; exact (Hexc _ _ _ Hrun) |].
  destruct ((500 <=? status_code r) && (status_code r <? 600)) eqn:E5;
    [exfalso; exact (Hexc _ _ _ Hrun) |].
  cbn [obind] in Hrun. unfold response_json in Hrun.
  destruct (decoded r) as [msg | v];
    [exfalso; exact (Hexc _ _ _ Hrun) |].
  injection Hrun as -> <-.
  apply andb_false_iff in E4, E5.
  split; [lia |]. split; reflexivity.
Qed.

(** X5. The credential reaches the run through the Authorization header
    alone: two credentials to which the registry answers alike give the
    same result and the same printed lines, so no printed line shows the
    credential. *)
Theorem credential_only_in_header (key1 key2 location header1 header2 : pystr)
  (codes : list pystr) (w : world) :
  authorization key1 = Returns header1 ->
  authorization key2 = Returns header2 ->
  http_get sys (request_url location codes) header1
  = http_get sys (request_url location codes) header2 ->
  fetch_company_data sys key1 location codes w
  = fetch_company_data sys key2 location codes w.
Proof.
  intros H1 H2 Hsame.
  rewrite (fetch_start key1 location header1 codes w H1),
    (fetch_start key2 location header2 codes w H2), Hsame.
  reflexivity.
Qed.

End Fetcher.

(** *** The header and the credential *)

Lemma lor_tag_value (tag k x : Z) :
  0 <= k -> 0 <= x < 2 ^ k -> Z.lor (Z.shiftl tag k) x = tag * 2 ^ k + x.
Proof. intros. apply lor_shiftl_low; assumption. Qed.

Lemma cont_byte (x : Z) : Z.lor 128 (Z.land x 63) = 128 + x mod 64.
Proof.
  rewrite land_63. change 128 with (Z.shiftl 2 6) at 1.
  rewrite lor_tag_value; [reflexivity | lia |].
  change (2 ^ 6) with 64. apply Z.mod_pos_bound. lia.
Qed.

Lemma lead_byte (tag k n c : Z) :
  0 <= k -> 0 <= n -> 0 <= c < 2 ^ (n + k) ->
  Z.lor (Z.shiftl tag k) (Z.shiftr c n) = tag * 2 ^ k + c / 2 ^ n.
Proof.
  intros Hk Hn Hc. rewrite shiftr_div by assumption.
  apply lor_tag_value; [assumption |]. split.
  - apply Z.div_pos; [lia | apply Z.pow_pos_nonneg; lia].
  - apply Z.div_lt_upper_bound; [apply Z.pow_pos_nonneg; lia |].
    rewrite <- Z.pow_add_r by assumption. lia.
Qed.

Lemma land_31 (x : Z) : Z.land x 31 = x mod 32.
Proof. apply (land_low x 5). lia. Qed.

Lemma land_7 (x : Z) : Z.land x 7 = x mod 8.
Proof. apply (land_low x 3). lia. Qed.

Lemma utf8_two (c : Z) (rest : pybytes) :
  128 <= c < 2048 ->
  utf8_decode (Z.lor 192 (Z.shiftr c 6) :: Z.lor 128 (Z.land c 63) :: rest)
  = option_map (cons c) (utf8_decode rest).
Proof.
  intros Hc.
  change 192 with (Z.shiftl 6 5).
  rewrite (lead_byte 6 5 6 c) by (cbn; lia). rewrite cont_byte.
  change (2 ^ 5) with 32. change (2 ^ 6) with 64.
  set (b0 := 6 * 32 + c / 64). set (b1 := 128 + c mod 64).
  assert (H0 : 194 <= b0 <= 223) by (subst b0; Z.div_mod_to_equations; lia).
  assert (H1 : 128 <= b1 <= 191) by (subst b1; Z.div_mod_to_equations; lia).
  cbn [utf8_decode]. unfold is_cont, cont_bits.
  replace ((0 <=? b0) && (b0 <? 128)) with false by lia.
  replace ((194 <=? b0) && (b0 <=? 223)) with true by lia.
  replace ((128 <=? b1) && (b1 <=? 191)) with true by lia.
  rewrite land_31, land_63.
  rewrite (lor_tag_value (b0 mod 32) 6 (b1 mod 64))
    by (try lia; change (2 ^ 6) with 64; apply Z.mod_pos_bound; lia).
  change (2 ^ 6) with 64.
  replace (b0 mod 32 * 64 + b1 mod 64) with c
    by (subst b0 b1; Z.div_mod_to_equations; lia).
  reflexivity.
Qed.

Lemma utf8_three (c : Z) (rest : pybytes) :
  2048 <= c < 65536 -> ~ (55296 <= c <= 57343) ->
  utf8_decode (Z.lor 224 (Z.shiftr c 12)
               :: Z.lor 128 (Z.land (Z.shiftr c 6) 63)
               :: Z.lor 128 (Z.land c 63) :: rest)
  = option_map (cons c) (utf8_decode rest).
Proof.
  intros Hc Hs.
  change 224 with (Z.shiftl 14 4).
  rewrite (lead_byte 14 4 12 c) by (cbn; lia). rewrite !cont_byte.
  rewrite shiftr_div by lia.
  change (2 ^ 4) with 16. change (2 ^ 12) with 4096. change (2 ^ 6) with 64.
  set (b0 := 14 * 16 + c / 4096). set (b1 := 128 + (c / 64) mod 64).
  set (b2 := 128 + c mod 64).
  assert (H0 : 224 <= b0 <= 239) by (subst b0; Z.div_mod_to_equations; lia).
  assert (H1 : 128 <= b1 <= 191) by (subst b1; Z.div_mod_to_equations; lia).
  assert (H2 : 128 <= b2 <= 191) by (subst b2; Z.div_mod_to_equations; lia).
  assert (Hlow : b0 = 224 -> 160 <= b1)
    by (subst b0 b1; Z.div_mod_to_equations; lia).
  assert (Hsur : b0 = 237 -> b1 <= 159)
    by (subst b0 b1; Z.div_mod_to_equations; lia).
  cbn [utf8_decode]. unfold is_cont, cont_bits.
  replace ((0 <=? b0) && (b0 <? 128)) with false by lia.
  replace ((194 <=? b0) && (b0 <=? 223)) with false by lia.
  replace ((224 <=? b0) && (b0 <=? 239)) with true by lia.
  replace ((128 <=? b1) && (b1 <=? 191)) with true by lia.
  replace ((128 <=? b2) && (b2 <=? 191)) with true by lia.
  replace (negb ((b0 =? 224) && (b1 <? 160))) with true by lia.
  replace (negb ((b0 =? 237) && (159 <? b1))) with true by lia.
  cbn [andb].
  rewrite land_15, !land_63.
  rewrite (lor_tag_value (b1 mod 64) 6 (b2 mod 64))
    by (try lia; change (2 ^ 6) with 64; apply Z.mod_pos_bound; lia).
  rewrite (lor_tag_value (b0 mod 16) 12)
    by (try lia; change (2 ^ 6) with 64; change (2 ^ 12) with 4096;
        Z.div_mod_to_equations; lia).
  change (2 ^ 6) with 64. change (2 ^ 12) with 4096.
  replace (b0 mod 16 * 4096 + (b1 mod 64 * 64 + b2 mod 64)) with c
    by (subst b0 b1 b2; Z.div_mod_to_equations; lia).
  reflexivity.
Qed.

Lemma utf8_four (c : Z) (rest : pybytes) :
  65536 <= c < 1114112 ->
  utf8_decode (Z.lor 240 (Z.shiftr c 18)
               :: Z.lor 128 (Z.land (Z.shiftr c 12) 63)
               :: Z.lor 128 (Z.land (Z.shiftr c 6) 63)
               :: Z.lor 128 (Z.land c 63) :: rest)
  = option_map (cons c) (utf8_decode rest).
Proof.
  intros Hc.
  change 240 with (Z.shiftl 30 3).
  rewrite (lead_byte 30 3 18 c) by (cbn; lia). rewrite !cont_byte.
  rewrite !shiftr_div by lia.
  change (2 ^ 3) with 8. change (2 ^ 18) with 262144.
  change (2 ^ 12) with 4096. change (2 ^ 6) with 64.
  set (b0 := 30 * 8 + c / 262144). set (b1 := 128 + (c / 4096) mod 64).
  set (b2 := 128 + (c / 64) mod 64). set (b3 := 128 + c mod 64).
  assert (H0 : 240 <= b0 <= 244) by (subst b0; Z.div_mod_to_equations; lia).
  assert (H1 : 128 <= b1 <= 191) by (subst b1; Z.div_mod_to_equations; lia).
  assert (H2 : 128 <= b2 <= 191) by (subst b2; Z.div_mod_to_equations; lia).
  assert (H3 : 128 <= b3 <= 191) by (subst b3; Z.div_mod_to_equations; lia).
  assert (Hlow : b0 = 240 -> 144 <= b1)
    by (subst b0 b1; Z.div_mod_to_equations; lia).
  assert (Hhigh : b0 = 244 -> b1 <= 143)
    by (subst b0 b1; Z.div_mod_to_equations; lia).
  cbn [utf8_decode]. unfold is_cont, cont_bits.
  replace ((0 <=? b0) && (b0 <? 128)) with false by lia.
  replace ((194 <=? b0) && (b0 <=? 223)) with false by lia.
  replace ((224 <=? b0) && (b0 <=? 239)) with false by lia.
  replace ((240 <=? b0) && (b0 <=? 244)) with true by lia.
  replace ((128 <=? b1) && (b1 <=? 191)) with true by lia.
  replace ((128 <=? b2) && (b2 <=? 191)) with true by lia.
  replace ((128 <=? b3) && (b3 <=? 191)) with true by lia.
  replace (negb ((b0 =? 240) && (b1 <? 144))) with true by lia.
  replace (negb ((b0 =? 244) && (143 <? b1))) with true by lia.
  cbn [andb].
  rewrite land_7, !land_63.
  rewrite (lor_tag_value (b2 mod 64) 6 (b3 mod 64))
    by (try lia; change (2 ^ 6) with 64; apply Z.mod_pos_bound; lia).
  rewrite (lor_tag_value (b1 mod 64) 12)
    by (try lia; change (2 ^ 6) with 64; change (2 ^ 12) with 4096;
        Z.div_mod_to_equations; lia).
  rewrite (lor_tag_value (b0 mod 8) 18)
    by (try lia; change (2 ^ 6) with 64; change (2 ^ 12) with 4096;
        change (2 ^ 18) with 262144; Z.div_mod_to_equations; lia).
  change (2 ^ 6) with 64. change (2 ^ 12) with 4096.
  change (2 ^ 18) with 262144.
  replace (b0 mod 8 * 262144
           + (b1 mod 64 * 4096 + (b2 mod 64 * 64 + b3 mod 64))) with c
    by (subst b0 b1 b2 b3; Z.div_mod_to_equations; lia).
  reflexivity.
Qed.

Lemma utf8_char_decode (c : Z) (b rest : pybytes) :
  utf8_char c = Some b ->
  utf8_decode (b ++ rest) = option_map (cons c) (utf8_decode rest).
Proof.
  unfold utf8_char, is_surrogate.
  destruct (Z.ltb_spec c 0); [discriminate |].
  destruct (Z.ltb_spec c 128).
  { intros [= <-]. cbn [app utf8_decode].
    replace ((0 <=? c) && (c <? 128)) with true by lia. reflexivity. }
  destruct (Z.ltb_spec c 2048).
  { intros [= <-]. apply utf8_two. lia. }
  destruct (Z.ltb_spec c 65536).
  { destruct ((55296 <=? c) && (c <=? 57343)) eqn:Es; [discriminate |].
    intros [= <-]. apply utf8_three; lia. }
  destruct (Z.ltb_spec c 1114112); [| discriminate].
  intros [= <-]. apply utf8_four. lia.
Qed.

Lemma utf8_round_trip (s : pystr) (bs : pybytes) :
  utf8_encode s = Some bs -> utf8_decode bs = Some s.
Proof.
  revert bs. induction s as [| c s IH]; intros bs.
  - intros [= <-]. reflexivity.
  - cbn [utf8_encode].
    destruct (utf8_char c) as [b |] eqn:Eb; [| discriminate].
    destruct (utf8_encode s) as [bs' |]; [| discriminate].
    intros [= <-]. rewrite (utf8_char_decode c b bs' Eb), (IH bs' eq_refl).
    reflexivity.
Qed.

(** X6. The Authorization value determines the credential: after ["Basic "]
    it decodes, as base64 and then as UTF-8, to the credential followed by
    a colon, so two credentials never share a header. *)
Theorem header_determines_credential (raw_api_key header : pystr) :
  authorization raw_api_key = Returns header ->
  (exists encoded bytes,
      header = lit "Basic " ++ encoded
      /\ b64decode encoded = Some bytes
      /\ utf8_decode bytes = Some (raw_api_key ++ lit ":"))
  /\ (forall other, authorization other = Returns header ->
                    other = raw_api_key).
Proof.
  assert (Hback : forall key h,
             authorization key = Returns h ->
             exists encoded bytes,
               h = lit "Basic " ++ encoded
               /\ b64decode encoded = Some bytes
               /\ utf8_decode bytes = Some (key ++ lit ":")).
  { intros key h. unfold authorization.
    destruct (utf8_encode (key ++ lit ":")) as [bytes |] eqn:Eb;
      [| discriminate].
    rewrite (utf8_decode_ascii _ (b64encode_ascii bytes)).
    intros [= <-]. exists (b64encode bytes), bytes.
    split; [reflexivity |]. split.
    - apply b64decode_b64encode. exact (utf8_encode_bytes _ _ Eb).
    - exact (utf8_round_trip _ _ Eb). }
  intros Hauth. split; [exact (Hback _ _ Hauth) |].
  intros other Hother.
  destruct (Hback _ _ Hauth) as (e1 & b1 & E1 & D1 & U1).
  destruct (Hback _ _ Hother) as (e2 & b2 & E2 & D2 & U2).
  rewrite E1 in E2. apply app_inv_head in E2. subst e2.
  rewrite D1 in D2. injection D2 as <-.
  rewrite U1 in U2. injection U2 as U2.
  apply app_inv_tail in U2. congruence.
Qed.

(** *** More on the entry point *)

Section EntryPoint.
Context {rt : Runtime}.
Variable sys : system.

(** X7. With a setting missing the run makes no request and writes no file.
    A missing key prints two lines and the run ends normally; with the key
    set, a missing location or missing codes print one line and call
    [exit()]; codes that are empty after stripping print one line and the
    run ends normally. *)
Theorem unconfigured_run (w : world) :
  let key := environ sys (lit "API_KEY") in
  let location := environ sys (lit "LOCATION") in
  let codes := environ sys (lit "SIC_CODES") in
  (unset key = true ->
   main sys w
   = (Returns tt,
      World (files w)
        (stdout w
         ++ [lit "Error: API_KEY not found in .env file. Please create a .env file with your RAW API_KEY.";
             lit "Example .env content: API_KEY=your_actual_api_key_without_encoding"])))
  /\ (unset key = false -> unset location = true ->
      main sys w
      = (Raises (Exc KSystemExit []),
         World (files w) (stdout w ++ [lit "Location cannot be empty."])))
  /\ (unset key = false -> unset location = false -> unset codes = true ->
      main sys w
      = (Raises (Exc KSystemExit []),
         World (files w) (stdout w ++ [lit "SIC code(s) cannot be empty."])))
  /\ (unset key = false -> unset location = false -> unset codes = false ->
      clean_codes (getenv_or_empty codes) = [] ->
      main sys w
      = (Returns tt,
         World (files w)
           (stdout w ++ [lit "SIC code(s) cannot be empty after stripping."]))).
Proof.
  cbv zeta. unfold main.
  repeat split.
  - intros ->. unfold bind, print. cbn [files stdout].
    rewrite <- app_assoc. reflexivity.
  - intros -> ->. reflexivity.
  - intros -> -> ->. reflexivity.
  - intros -> -> -> ->. reflexivity.
Qed.

(** X8. A fetch that fails prevents the writer from running: when the
    fetcher returns [None] (or any falsy value) the run prints one more
    line and ends with the files as they were; when the fetcher raises, so
    does the run. *)
Theorem failed_fetch_leaves_files (key location s : pystr)
  (codes : list pystr) (w : world) :
  environ sys (lit "API_KEY") = Some key -> key <> [] ->
  environ sys (lit "LOCATION") = Some location -> location <> [] ->
  environ sys (lit "SIC_CODES") = Some s -> clean_codes s = codes ->
  codes <> [] ->
  match fetch_company_data sys key location codes w with
  | (Returns data, w1) =>
      truthy data = false ->
      main sys w
      = (Returns tt,
         World (files w)
           (stdout w1
            ++ [lit "Could not retrieve or process company data. Please check previous error messages."]))
  | (Raises e, w1) =>
      main sys w = (Raises e, w1) /\ files w1 = files w
  end.
Proof.
  intros Hkey Hk Hloc Hl Hsic Hclean Hcodes.
  rewrite (main_configured sys key location s codes
             Hkey Hk Hloc Hl Hsic Hclean Hcodes).
  unfold bind.
  pose proof (fetch_only_prints sys key location codes w) as Hkeep.
  destruct (fetch_company_data sys key location codes w) as [[data | e] w1].
  - intros ->. destruct (Hkeep _ _ eq_refl) as [<- _]. reflexivity.
  - destruct (Hkeep _ _ eq_refl) as [Hf _]. split; [reflexivity | exact Hf].
Qed.

End EntryPoint.

(** *** The cleaned codes *)

Lemma lstrip_head (s : pystr) (a : Z) :
  hd_error (lstrip s) = Some a -> isspace a = false.
Proof.
  induction s as [| c s IH]; cbn [lstrip]; [discriminate |].
  destruct (isspace c) eqn:E; [exact IH |].
  cbn. intros [= <-]. exact E.
Qed.

Lemma lstrip_fixed (s : pystr) :
  (forall a, hd_error s = Some a -> isspace a = false) -> lstrip s = s.
Proof.
  destruct s as [| c s]; [reflexivity |]. intros H. cbn [lstrip].
  rewrite (H c eq_refl). reflexivity.
Qed.

Lemma lstrip_suffix (s : pystr) :
  exists blanks, s = blanks ++ lstrip s /\ Forall (fun c => isspace c = true) blanks.
Proof.
  induction s as [| c s (blanks & E & Hb)]; [exists []; split; [reflexivity | constructor] |].
  cbn [lstrip]. destruct (isspace c) eqn:Ec.
  - exists (c :: blanks). split; [cbn; congruence | constructor; assumption].
  - exists []. split; [reflexivity | constructor].
Qed.

Lemma rstrip_prefix (s : pystr) :
  exists blanks, s = rstrip s ++ blanks /\ Forall (fun c => isspace c = true) blanks.
Proof.
  unfold rstrip. destruct (lstrip_suffix (rev s)) as (blanks & E & Hb).
  exists (rev blanks). split.
  - rewrite <- rev_app_distr, <- E, rev_involutive. reflexivity.
  - apply Forall_rev. exact Hb.
Qed.

Lemma rstrip_last (s : pystr) (z : Z) :
  hd_error (rev (rstrip s)) = Some z -> isspace z = false.
Proof. unfold rstrip. rewrite rev_involutive. apply lstrip_head. Qed.

Lemma rstrip_head (s : pystr) (a : Z) :
  (forall x, hd_error s = Some x -> isspace x = false) ->
  hd_error (rstrip s) = Some a -> isspace a = false.
Proof.
  intros Hs Ha. destruct (rstrip_prefix s) as (blanks & E & _).
  apply Hs. rewrite E. destruct (rstrip s); [discriminate | exact Ha].
Qed.

Lemma rstrip_fixed (s : pystr) :
  (forall z, hd_error (rev s) = Some z -> isspace z = false) -> rstrip s = s.
Proof.
  intros H. unfold rstrip. rewrite (lstrip_fixed (rev s) H).
  apply rev_involutive.
Qed.

Lemma strip_ends (s : pystr) :
  (forall a, hd_error (strip s) = Some a -> isspace a = false)
  /\ (forall z, hd_error (rev (strip s)) = Some z -> isspace z = false).
Proof.
  unfold strip. split.
  - intros a. apply rstrip_head. intros x. apply lstrip_head.
  - intros z. apply rstrip_last.
Qed.

Lemma strip_fixed (s : pystr) :
  (forall a, hd_error s = Some a -> isspace a = false) ->
  (forall z, hd_error (rev s) = Some z -> isspace z = false) ->
  strip s = s.
Proof.
  intros Ha Hz. unfold strip. rewrite (lstrip_fixed s Ha).
  apply rstrip_fixed. exact Hz.
Qed.

Lemma strip_clean (code : pystr) : clean_code code -> strip code = code.
Proof. intros (_ & _ & Ha & Hz). apply strip_fixed; assumption. Qed.

Lemma strip_space_clean (code : pystr) :
  clean_code code -> strip (32 :: code) = code.
Proof.
  intros Hc. unfold strip. cbn [lstrip].
  change (isspace 32) with true. cbv iota.
  exact (strip_clean code Hc).
Qed.

Lemma clean_codes_clean (sic_codes_input_str : pystr) :
  Forall clean_code (clean_codes sic_codes_input_str).
Proof.
  apply Forall_forall. intros code Hin.
  pose proof (proj1 (Forall_forall _ _)
                (clean_codes_spec sic_codes_input_str) code Hin)
    as [Hcomma Hne].
  unfold clean_codes in Hin. apply in_map_iff in Hin.
  destruct Hin as (raw & <- & _).
  destruct (strip_ends raw) as [Ha Hz].
  repeat split; assumption.
Qed.

Lemma clean_filter_map (codes : list pystr) (f : pystr -> pystr) :
  Forall (fun c => strip (f c) = c /\ c <> []) codes ->
  map strip (filter (fun code => negb (is_nil (strip code))) (map f codes))
  = codes.
Proof.
  induction 1 as [| c rest [Hs Hne] _ IH]; [reflexivity |].
  cbn [map filter]. rewrite Hs.
  destruct c; [congruence |]. cbn [is_nil negb map]. rewrite Hs, IH.
  reflexivity.
Qed.

Lemma split_join_spaced (parts : list pystr) (p : pystr) :
  Forall (fun q => ~ In 44 q) (p :: parts) ->
  split 44 (join (lit ", ") (p :: parts)) = p :: map (cons 32) parts.
Proof.
  revert p. induction parts as [| q rest IH]; intros p Hall.
  - cbn [join map]. apply split_no_sep.
    inversion Hall; assumption.
  - inversion Hall as [| ? ? Hp Hrest]; subst.
    change (join (lit ", ") (p :: q :: rest))
      with (p ++ 44 :: 32 :: join (lit ", ") (q :: rest)).
    rewrite split_app_sep by exact Hp.
    cbn [split]. change (32 =? 44) with false. cbv iota.
    rewrite (IH q Hrest). reflexivity.
Qed.

Lemma clean_join_read_back (codes : list pystr) :
  Forall clean_code codes ->
  clean_codes (join (lit ",") codes) = codes
  /\ clean_codes (join (lit ", ") codes) = codes.
Proof.
  intros Hall.
  assert (Hcomma : Forall (fun q => ~ In 44 q) codes).
  { eapply Forall_impl; [| exact Hall]. intros c (_ & H & _). exact H. }
  destruct codes as [| p rest]; [split; reflexivity |].
  unfold clean_codes. split.
  - change (lit ",") with [44].
    rewrite (split_join 44 (p :: rest)) by (discriminate || exact Hcomma).
    rewrite <- (map_id (p :: rest)) at 1.
    apply clean_filter_map.
    eapply Forall_impl; [| exact Hall].
    intros c Hc. split; [exact (strip_clean c Hc) | apply Hc].
  - rewrite (split_join_spaced rest p Hcomma).
    inversion Hall as [| ? ? Hp Hrest]; subst.
    cbn [filter map]. rewrite (strip_clean p Hp).
    destruct p as [| x p']; [destruct Hp as [Hp _]; congruence |].
    cbn [is_nil negb map]. rewrite (strip_clean (x :: p') Hp). f_equal.
    apply clean_filter_map.
    eapply Forall_impl; [| exact Hrest].
    intros c Hc. split; [exact (strip_space_clean c Hc) | apply Hc].
Qed.

(** X9. Every code the entry point keeps is non-empty, holds no comma and
    has no whitespace at either end. *)
Theorem cleaned_codes_are_clean (sic_codes_input_str : pystr) :
  Forall clean_code (clean_codes sic_codes_input_str).
Proof. exact (clean_codes_clean sic_codes_input_str). Qed.

(** X10. Clean codes survive being joined and read again: the list joined
    with [","] (as in the request URL) or with [", "] (as in the messages)
    is read back by the entry point's cleaning as the same list. *)
Theorem clean_codes_read_back (codes : list pystr) :
  Forall clean_code codes ->
  clean_codes (join (lit ",") codes) = codes
  /\ clean_codes (join (lit ", ") codes) = codes.
Proof. exact (clean_join_read_back codes). Qed.

(** *** More on the loop *)

Section LoopMore.
Context {rt : Runtime}.

Lemma loop_body_usable (kv : list (pystr * json)) (st : loop_state) :
  loop_body (JObj kv) st
  = Returns (if usable kv
             then LoopState (output_lines st ++ block_of kv)
                    (skipped_count st) (processed_count st + 1)
             else skip st).
Proof.
  rewrite loop_body_dict. cbv zeta. unfold usable, block_of, address_of.
  destruct (truthy (get_or kv "registered_office_address" JNull));
    [| reflexivity].
  destruct (all_blank _); reflexivity.
Qed.

Lemma for_each_from (kvs : list (list (pystr * json))) :
  forall st,
    for_each (map JObj kvs) st
    = Returns
        (LoopState
           (output_lines st ++ List.concat (map block_of (filter usable kvs)))
           (skipped_count st
            + Z.of_nat (List.length
                          (filter (fun kv => negb (usable kv)) kvs)))
           (processed_count st
            + Z.of_nat (List.length (filter usable kvs)))).
Proof.
  induction kvs as [| kv rest IH]; intros st.
  - cbn. rewrite app_nil_r, !Z.add_0_r. destruct st; reflexivity.
  - cbn [map for_each]. rewrite loop_body_usable. cbn [obind].
    rewrite IH. cbn [filter]. destruct (usable kv); cbn [negb].
    + cbn [map List.concat List.length output_lines skipped_count
             processed_count].
      rewrite <- app_assoc. f_equal. f_equal. lia.
    + cbn [skip output_lines skipped_count processed_count List.length].
      f_equal. f_equal. lia.
Qed.

Lemma loop_writes_usable_companies_aux (kvs : list (list (pystr * json))) :
  for_each (map JObj kvs) (LoopState [] 0 0)
  = Returns
      (LoopState
         (List.concat (map block_of (filter usable kvs)))
         (Z.of_nat (List.length (filter (fun kv => negb (usable kv)) kvs)))
         (Z.of_nat (List.length (filter usable kvs)))).
Proof. rewrite for_each_from. reflexivity. Qed.

(** X11. The loop over a list of companies gives one block for each usable
    company, in the order of the list, and counts the usable companies as
    processed and all the others as skipped. *)
Theorem loop_writes_usable_companies (kvs : list (list (pystr * json))) :
  for_each (map JObj kvs) (LoopState [] 0 0)
  = Returns
      (LoopState
         (List.concat (map block_of (filter usable kvs)))
         (Z.of_nat (List.length (filter (fun kv => negb (usable kv)) kvs)))
         (Z.of_nat (List.length (filter usable kvs)))).
Proof. exact (loop_writes_usable_companies_aux kvs). Qed.

Lemma usable_false (kv : list (pystr * json)) :
  usable kv = false
  <-> truthy (address_of kv) = false
      \/ (exists name,
             dict_get kv (lit "company_name") = Some name
             /\ truthy name = false)
         /\ truthy (get_or (address_fields (address_of kv))
                      "address_line_1" (JStr [])) = false
         /\ truthy (get_or (address_fields (address_of kv))
                      "locality" (JStr [])) = false
         /\ truthy (get_or (address_fields (address_of kv))
                      "postal_code" (JStr [])) = false.
Proof.
  unfold usable. destruct (truthy (address_of kv)); cbn [andb].
  - rewrite negb_false_iff, all_blank_iff. unfold blank4, extraction.
    cbn [company_name address_line_1 locality postal_code]. unfold get_or at 1.
    split.
    + intros (Hn & H1 & Hl & Hp). right.
      destruct (dict_get kv (lit "company_name")) as [name |];
        [| discriminate Hn].
      split; [exists name; tauto | tauto].
    + intros [Hf | ((name & Hname & Hn) & H1 & Hl & Hp)]; [discriminate |].
      rewrite Hname. tauto.
  - split; [tauto | reflexivity].
Qed.

(** X12. The loop skips a company exactly when its address is missing,
    [null] or empty, or when its name is present and falsy and address
    line 1, locality and postal code are each missing or falsy; a company
    without a name and with a truthy address is never skipped. *)
Theorem skipped_iff (kv : list (pystr * json)) (st : loop_state) :
  let fields := address_fields (address_of kv) in
  loop_body (JObj kv) st = Returns (skip st)
  <-> truthy (address_of kv) = false
      \/ (exists name,
             dict_get kv (lit "company_name") = Some name
             /\ truthy name = false)
         /\ truthy (get_or fields "address_line_1" (JStr [])) = false
         /\ truthy (get_or fields "locality" (JStr [])) = false
         /\ truthy (get_or fields "postal_code" (JStr [])) = false.
Proof.
  cbv zeta. rewrite <- usable_false, loop_body_usable.
  destruct (usable kv); split; try reflexivity; try discriminate.
  intros E. apply (f_equal (fun o => match o with
                                   | Returns s => processed_count s
                                   | Raises _ => 0
                                   end)) in E.
  cbn in E. lia.
Qed.

Lemma loop_body_not_dict (company : json) (st : loop_state) :
  is_dict company = false ->
  exists e, loop_body company st = Raises e /\ kind e = KAttributeError.
Proof.
  destruct company; try discriminate; intros _; eexists; split; reflexivity.
Qed.

Lemma for_each_raises (items : list json) :
  forall st e, for_each items st = Raises e -> kind e = KAttributeError.
Proof.
  induction items as [| c rest IH]; intros st e Hrun; [discriminate |].
  cbn [for_each] in Hrun.
  destruct (loop_body c st) as [st1 | e1] eqn:Hbody.
  - exact (IH _ _ Hrun).
  - cbn [obind] in Hrun. injection Hrun as <-.
    destruct (is_dict c) eqn:Ed.
    + destruct c; try discriminate Ed.
      rewrite loop_body_dict in Hbody. discriminate Hbody.
    + destruct (loop_body_not_dict c st Ed) as (e' & He' & Hk).
      congruence.
Qed.

(** X13. The loop finishes exactly when every item is a dict; an item of any
    other type ends it with an [AttributeError]. *)
Theorem loop_needs_dicts (items : list json) (st : loop_state) :
  (Forall is_dictb items <-> exists st', for_each items st = Returns st')
  /\ (forall e, for_each items st = Raises e -> kind e = KAttributeError).
Proof.
  split; [split |].
  - intros H. exact (for_each_total items H st).
  - intros [st' H]. exact (for_each_dicts items st st' H).
  - apply for_each_raises.
Qed.

End LoopMore.

(** *** More on the writer *)

Lemma filter_none_length {A : Type} (f : A -> bool) (l : list A) :
  filter f l = [] ->
  List.length (filter (fun x => negb (f x)) l) = List.length l.
Proof.
  induction l as [| x l IH]; [reflexivity |]. cbn [filter].
  destruct (f x); [discriminate |]. cbn [negb List.length]. intros H.
  rewrite (IH H). reflexivity.
Qed.


Lemma no_items_raises (data : json) (e : exc) :
  no_items data = Raises e -> kind e = KTypeError.
Proof.
  unfold no_items. destruct (truthy data); cbn [negb]; [| discriminate].
  destruct data as [| b | m | f | s | l | kv]; cbn [py_in obind];
    try (intros [= <-]; reflexivity).
  - destruct (contains (lit "items") s); cbn [negb]; [| discriminate].
    cbn. intros [= <-]. reflexivity.
  - destruct (existsb (is_str (lit "items")) l); cbn [negb]; [| discriminate].
    cbn. intros [= <-]. reflexivity.
  - destruct (dict_get kv (lit "items")) as [v |] eqn:E; cbn [negb];
      [| discriminate].
    cbn [py_subscript]. rewrite E. discriminate.
Qed.

Lemma no_items_false (data : json) :
  no_items data = Returns false ->
  exists kv v, data = JObj kv /\ dict_get kv (lit "items") = Some v
               /\ truthy v = true.
Proof.
  unfold no_items. destruct (truthy data); cbn [negb]; [| discriminate].
  destruct data as [| b | m | f | s | l | kv]; cbn [py_in obind];
    try discriminate.
  - destruct (contains (lit "items") s); cbn [negb]; discriminate.
  - destruct (existsb (is_str (lit "items")) l); cbn [negb]; discriminate.
  - destruct (dict_get kv (lit "items")) as [v |] eqn:E; cbn [negb];
      [| discriminate].
    cbn [py_subscript]. rewrite E. cbn [obind]. intros [= H].
    exists kv, v. apply negb_false_iff in H. auto.
Qed.

Lemma py_iter_raises (v : json) (e : exc) :
  py_iter v = Raises e -> kind e = KTypeError.
Proof. destruct v; cbn; try discriminate; intros [= <-]; reflexivity. Qed.

Section WriterMore.
Context {rt : Runtime}.
Variable sys : system.

(** The state after a write that the file system refused. *)
Lemma refused_write (name msg : pystr) (body : M unit) (w : world) :
  open_error sys name = Some msg ->
  try_except (bind (open_w sys name) (fun _ => body)) CIOError
    (write_error name) w
  = (Returns tt,
     World (files w)
       (stdout w ++ [lit "Error writing to file " ++ name ++ lit ": " ++ msg])).
Proof.
  intros Hopen. unfold try_except, bind, open_w. rewrite Hopen.
  reflexivity.
Qed.

Lemma refused_cases (data : json) (location first_code msg : pystr)
  (rest : list pystr) (w : world) :
  let name := output_filename_of location first_code in
  open_error sys name = Some msg ->
  (exists printed,
      format_and_save_addresses sys data location (first_code :: rest) w
      = (Returns tt,
         World (files w)
           (stdout w ++ printed
            ++ [lit "Error writing to file " ++ name ++ lit ": " ++ msg])))
  \/ (exists e,
         format_and_save_addresses sys data location (first_code :: rest) w
         = (Raises e, w)
         /\ kind e <> KOSError).
Proof.
  intros name Hopen. subst name.
  unfold format_and_save_addresses.
  destruct (no_items data) as [[|] | e] eqn:Hno.
  - rewrite bind_lift_returns. cbv beta iota.
    unfold bind at 1, print at 1.
    rewrite (refused_write _ msg _ _ Hopen). cbn [files stdout].
    left. rewrite <- app_assoc. eexists. reflexivity.
  - rewrite bind_lift_returns. cbv beta iota.
    destruct (no_items_false data Hno) as (kv & v & -> & Hv & Ht).
    cbn [py_subscript]. rewrite Hv, bind_lift_returns.
    destruct (py_iter v) as [companies | e] eqn:Hiter.
    + rewrite bind_lift_returns.
      destruct (for_each companies (LoopState [] 0 0)) as [st | e] eqn:Hloop.
      * rewrite bind_lift_returns.
        destruct (is_nil (output_lines st) && (processed_count st =? 0)).
        -- unfold bind at 1, print at 1.
           rewrite (refused_write _ msg _ _ Hopen). cbn [files stdout].
           left. rewrite <- app_assoc. eexists. reflexivity.
        -- rewrite (refused_write _ msg _ _ Hopen).
           left. exists []. reflexivity.
      * right. exists e. split; [reflexivity |].
        rewrite (for_each_raises _ _ _ Hloop). discriminate.
    + right. exists e. split; [reflexivity |].
      rewrite (py_iter_raises _ _ Hiter). discriminate.
  - right. exists e. split; [reflexivity |].
    rewrite (no_items_raises _ _ Hno). discriminate.
Qed.

(** X14. When the output file cannot be opened the writer changes no file
    and the [OSError] does not leave it: if the writer returns, the last
    line it printed reports the error; if it raises, it is for another
    reason. *)
Theorem refused_file_is_reported (data : json)
  (location first_code msg : pystr) (rest : list pystr) (w : world) :
  let name := output_filename_of location first_code in
  open_error sys name = Some msg ->
  let run := format_and_save_addresses sys data location (first_code :: rest)
               w in
  files (snd run) = files w
  /\ (fst run = Returns tt ->
      exists printed,
        stdout (snd run)
        = stdout w ++ printed
          ++ [lit "Error writing to file " ++ name ++ lit ": " ++ msg])
  /\ (forall e, fst run = Raises e -> kind e <> KOSError).
Proof.
  intros name Hopen run. subst run.
  destruct (refused_cases data location first_code msg rest w Hopen)
    as [[printed ->] | (e & -> & Hk)]; cbn [fst snd files stdout].
  - split; [reflexivity |]. split; [| intros ? [=]].
    intros _. exists printed. reflexivity.
  - split; [reflexivity |]. split; [intros [=] |].
    intros e' [= <-]. exact Hk.
Qed.

(** X15. Given no response ([None], or any falsy value) or a dict whose
    items are missing, [null] or empty, the writer writes the no-data
    message naming the location and the codes, and nothing else. *)
Theorem absent_response_report (data : json) (location first_code : pystr)
  (rest : list pystr) (w : world) :
  let name := output_filename_of location first_code in
  let codes := first_code :: rest in
  (truthy data = false
   \/ exists kv, data = JObj kv /\ truthy (get_or kv "items" JNull) = false) ->
  open_error sys name = None ->
  encodable (no_data_message location codes) ->
  format_and_save_addresses sys data location codes w
  = (Returns tt,
     World (set_file name (no_data_message location codes) (files w))
       (stdout w
        ++ [lit "No company items found in the data or 'items' is empty for "
            ++ location ++ lit " / " ++ join (lit ", ") codes ++ lit ".";
            lit "Output file '" ++ name
            ++ lit "' created with no data message."])).
Proof.
  intros name codes Hdata Hopen Henc.
  assert (Hno : no_items data = Returns true).
  { destruct Hdata as [Hf | (kv & -> & Hitems)].
    - unfold no_items. rewrite Hf. reflexivity.
    - unfold get_or in Hitems.
      destruct (dict_get kv (lit "items")) as [v |] eqn:Ev.
      + rewrite (no_items_dict kv v Ev), Hitems. reflexivity.
      + apply no_items_dict_missing. exact Ev. }
  pose proof (writer_no_items_run sys data location first_code rest w
                Hno Hopen) as Hrun.
  cbv zeta in Hrun. fold name codes in Hrun.
  unfold encodable in Henc.
  destruct (utf8_encode (no_data_message location codes)); [| congruence].
  rewrite Hrun. cbn [files stdout]. rewrite <- app_assoc. reflexivity.
Qed.

(** X16. When no company of a non-empty page is usable, the report holds the
    all-skipped message and a count line in which the records received and
    the records skipped are the same number: the length of the page. *)
Theorem all_skipped_counts_agree (kv : list (pystr * json))
  (kvs : list (list (pystr * json))) (location first_code : pystr)
  (rest : list pystr) (w : world) :
  let name := output_filename_of location first_code in
  let codes := first_code :: rest in
  let n := Z.of_nat (List.length kvs) in
  dict_get kv (lit "items") = Some (JList (map JObj kvs)) ->
  kvs <> [] ->
  filter usable kvs = [] ->
  open_error sys name = None ->
  encodable (all_skipped_message location codes) ->
  exists w',
    format_and_save_addresses sys (JObj kv) location codes w
    = (Returns tt, w')
    /\ read_file w' name
       = Some (all_skipped_message location codes ++ counts_line n n).
Proof.
  intros name codes n Hitems Hne Hnone Hopen Henc.
  pose proof (loop_writes_usable_companies_aux kvs) as Hloop.
  rewrite Hnone, (filter_none_length usable kvs Hnone) in Hloop.
  cbn [map List.concat List.length] in Hloop.
  assert (Hne' : map JObj kvs <> []) by (destruct kvs; [congruence | discriminate]).
  pose proof (writer_all_skipped_run sys kv (map JObj kvs) _ location
                first_code rest w Hitems Hne' Hloop eq_refl Hopen) as Hrun.
  cbv zeta in Hrun. fold name codes in Hrun.
  unfold encodable in Henc.
  destruct (utf8_encode (all_skipped_message location codes)); [| congruence].
  cbn [skipped_count] in Hrun. rewrite length_map in Hrun.
  eexists. split; [exact Hrun |].
  cbn [read_file files]. apply lookup_set_same.
Qed.

End WriterMore.

Section WriterReport.
Context {rt : Runtime}.
Variable sys : system.

Lemma blocks_run (kv : list (pystr * json))
  (kvs : list (list (pystr * json))) (location first_code : pystr)
  (rest : list pystr) (w : world) :
  let name := output_filename_of location first_code in
  let text := join newline (List.concat (map block_of (filter usable kvs))) in
  let api_hits := get_or kv "hits" (JStr (lit "N/A")) in
  dict_get kv (lit "items") = Some (JList (map JObj kvs)) ->
  filter usable kvs <> [] ->
  open_error sys name = None ->
  encodable text ->
  exists printed,
    format_and_save_addresses sys (JObj kv) location (first_code :: rest) w
    = (match int_lt (Z.of_nat (List.length kvs)) api_hits with
       | Returns _ => Returns tt
       | Raises e => Raises e
       end,
       World (set_file name text (files w)) (stdout w ++ printed))
    /\ (In partial_note printed
        <-> int_lt (Z.of_nat (List.length kvs)) api_hits = Returns true).
Proof.
  intros name text api_hits Hitems Husable Hopen Henc.
  pose proof (loop_writes_usable_companies_aux kvs) as Hloop.
  set (st := LoopState (List.concat _) _ _) in Hloop.
  assert (Hpos : 0 < processed_count st).
  { subst st. cbn [processed_count].
    destruct (filter usable kvs); [congruence | cbn [List.length]; lia]. }
  assert (Hne : map JObj kvs <> []).
  { intros E. apply map_eq_nil in E. subst kvs. apply Husable. reflexivity. }
  pose proof (writer_blocks_run sys kv (map JObj kvs) st location first_code
                rest w Hitems Hne Hloop Hpos Hopen) as Hrun.
  cbv zeta in Hrun. fold name api_hits in Hrun.
  change (output_lines st) with (List.concat (map block_of (filter usable kvs)))
    in Hrun.
  fold text in Hrun. unfold encodable in Henc.
  destruct (utf8_encode text); [| congruence].
  rewrite length_map in Hrun. rewrite Hrun.
  destruct (int_lt (Z.of_nat (List.length kvs)) api_hits) as [[|] | e].
  - exists (report_lines name st api_hits ++ [partial_note; pagination_note]).
    cbn [files stdout]. rewrite app_assoc. split; [reflexivity |].
    split; [reflexivity |]. intros _. apply in_or_app. right. left.
    reflexivity.
  - exists (report_lines name st api_hits). split; [reflexivity |].
    split; [| discriminate]. intros Hin. exfalso.
    exact (report_lines_no_note _ _ _ Hin).
  - exists (report_lines name st api_hits). split; [reflexivity |].
    split; [| discriminate]. intros Hin. exfalso.
    exact (report_lines_no_note _ _ _ Hin).
Qed.

Lemma report_holds_the_blocks_aux (kv : list (pystr * json))
  (kvs : list (list (pystr * json))) (location first_code : pystr)
  (rest : list pystr) (w : world) :
  let name := output_filename_of location first_code in
  let text := join newline (List.concat (map block_of (filter usable kvs))) in
  dict_get kv (lit "items") = Some (JList (map JObj kvs)) ->
  filter usable kvs <> [] ->
  open_error sys name = None ->
  encodable text ->
  read_file
    (snd (format_and_save_addresses sys (JObj kv) location
            (first_code :: rest) w))
    name
  = Some text.
Proof.
  intros name text Hitems Husable Hopen Henc.
  destruct (blocks_run kv kvs location first_code rest w
              Hitems Husable Hopen Henc) as (printed & -> & _).
  cbn [snd read_file files]. apply lookup_set_same.
Qed.

(** X17. For a page of companies of which at least one is usable, the report
    file holds, whatever it held before, the blocks of the usable companies
    in the order of the page, joined by newlines, and nothing else; this is
    so whether or not the diagnostics that follow succeed. *)
Theorem report_holds_the_blocks (kv : list (pystr * json))
  (kvs : list (list (pystr * json))) (location first_code : pystr)
  (rest : list pystr) (w : world) :
  let name := output_filename_of location first_code in
  let text := join newline (List.concat (map block_of (filter usable kvs))) in
  dict_get kv (lit "items") = Some (JList (map JObj kvs)) ->
  filter usable kvs <> [] ->
  open_error sys name = None ->
  encodable text ->
  read_file
    (snd (format_and_save_addresses sys (JObj kv) location
            (first_code :: rest) w))
    name
  = Some text.
Proof.
  exact (report_holds_the_blocks_aux kv kvs location first_code rest w).
Qed.


(** X19. An item that is not a dict stops the writer before it opens the
    file: it raises an [AttributeError] and leaves the files and the
    printed lines as they were. *)
Theorem malformed_item_writes_nothing (kv : list (pystr * json))
  (items : list json) (location first_code : pystr) (rest : list pystr)
  (w : world) :
  dict_get kv (lit "items") = Some (JList items) ->
  ~ Forall is_dictb items ->
  exists e,
    format_and_save_addresses sys (JObj kv) location (first_code :: rest) w
    = (Raises e, w)
    /\ kind e = KAttributeError.
Proof.
  intros Hitems Hbad.
  assert (Hne : items <> []) by (intros ->; apply Hbad; constructor).
  destruct (for_each items (LoopState [] 0 0)) as [st | e] eqn:Hloop.
  - exfalso. apply Hbad. exact (for_each_dicts items _ _ Hloop).
  - exists e. split; [| exact (for_each_raises items _ _ Hloop)].
    unfold format_and_save_addresses.
    rewrite (no_items_dict kv _ Hitems).
    destruct items as [| it its]; [congruence |].
    cbn [truthy is_nil negb py_subscript]. rewrite Hitems.
    rewrite bind_lift_returns. cbv beta iota.
    rewrite bind_lift_returns. cbn [py_iter].
    rewrite bind_lift_returns, Hloop. reflexivity.
Qed.

(** X20. A company whose address is truthy but not a dict (a string, a
    number, a list) is read as if its address had no fields: with a truthy
    name (or none, read as ["N/A"]) it gets the block of its name, three
    empty lines and the separator; with a falsy name it is skipped. *)
Theorem non_dict_address (kv : list (pystr * json)) (address_info : json)
  (st : loop_state) :
  dict_get kv (lit "registered_office_address") = Some address_info ->
  truthy address_info = true ->
  is_dict address_info = false ->
  let name := get_or kv "company_name" (JStr (lit "N/A")) in
  loop_body (JObj kv) st
  = Returns
      (if truthy name
       then LoopState (output_lines st
                       ++ [py_str name; []; []; []; lit "----"])
              (skipped_count st) (processed_count st + 1)
       else skip st).
Proof.
  intros Haddr Htruthy Hdict name.
  assert (Hget : get_or kv "registered_office_address" JNull = address_info).
  { unfold get_or. rewrite Haddr. reflexivity. }
  rewrite loop_body_dict. cbv zeta. rewrite Hget, Htruthy. cbn [negb].
  assert (Hfields : address_fields address_info = []).
  { destruct address_info; try reflexivity. discriminate Hdict. }
  unfold extraction, all_blank, processed, block. rewrite Hfields.
  cbn [company_name address_line_1 address_line_2 locality postal_code].
  fold name. unfold get_or. cbn [dict_get truthy is_nil negb].
  rewrite !andb_true_r.
  destruct (truthy name); reflexivity.
Qed.

(** X21. The file name the writer makes holds alphanumeric characters,
    underscores and the dot of [.txt] only, so never a path separator, and
    cleaning a name that is already clean changes nothing. *)
Theorem file_name_is_safe (location first_code : pystr) :
  Forall name_char (output_filename_of location first_code)
  /\ ~ In 47 (output_filename_of location first_code)
  /\ ~ In 92 (output_filename_of location first_code)
  /\ sanitize (sanitize location) = sanitize location.
Proof.
  assert (Hsan : forall s, Forall name_char (sanitize s)).
  { intros s. unfold sanitize. apply Forall_forall. intros c Hc.
    apply in_map_iff in Hc. destruct Hc as (x & <- & _).
    unfold sanitize_char, name_char.
    destruct (isalnum x) eqn:E; [left; exact E | right; left; reflexivity]. }
  assert (Hall : Forall name_char (output_filename_of location first_code)).
  { unfold output_filename_of. cbv zeta.
    repeat (apply Forall_app; split); try apply Hsan;
      repeat constructor; unfold name_char; cbn; tauto. }
  assert (Hnot : forall c, isalnum c = false -> c <> 95 -> c <> 46 ->
                           ~ In c (output_filename_of location first_code)).
  { intros c Hc H95 H46 Hin.
    destruct (proj1 (Forall_forall _ _) Hall c Hin) as [H | [H | H]];
      congruence. }
  split; [exact Hall |].
  split; [apply Hnot; [reflexivity | discriminate | discriminate] |].
  split; [apply Hnot; [reflexivity | discriminate | discriminate] |].
  unfold sanitize. rewrite map_map. apply map_ext. intros c.
  unfold sanitize_char. destruct (isalnum c) eqn:E.
  - rewrite E. reflexivity.
  - reflexivity.
Qed.

End WriterReport.

(** *** Whole runs *)

Lemma touches_raise {A : Type} (name : pystr) (e : exc) :
  touches_only name (@raise A e).
Proof. intros w r w' [= _ <-] n _. reflexivity. Qed.

Lemma only_prints_touches {A : Type} (name : pystr) (m : M A) :
  only_prints m -> touches_only name m.
Proof.
  intros Hm w r w' Hrun n _. destruct (Hm w r w' Hrun) as [Hf _].
  unfold read_file. rewrite Hf. reflexivity.
Qed.

Section WholeRun.
Context {rt : Runtime}.
Variable sys : system.

(** X22. A run changes at most one file, the one named after the location
    and the first code: every other file is afterwards as it was, whatever
    the settings, the registry's answer and the outcome of the run. *)
Theorem run_changes_one_file (w : world) (other : pystr) :
  other <> run_file sys ->
  read_file (snd (main sys w)) other = read_file w other.
Proof.
  intros Hother.
  assert (H : touches_only (run_file sys) (main sys)).
  { unfold main, run_file, py_exit.
    destruct (unset (environ sys (lit "API_KEY")));
      [apply touches_bind; [| intros ?]; apply touches_print |].
    destruct (unset (environ sys (lit "LOCATION")));
      [apply touches_bind; [apply touches_print | intros ?; apply touches_raise] |].
    destruct (unset (environ sys (lit "SIC_CODES")));
      [apply touches_bind; [apply touches_print | intros ?; apply touches_raise] |].
    destruct (clean_codes (getenv_or_empty (environ sys (lit "SIC_CODES"))))
      as [| first_code rest]; [apply touches_print |].
    cbn [is_nil hd].
    apply touches_bind.
    - apply only_prints_touches, fetch_only_prints.
    - intros data. destruct (truthy data); [| apply touches_print].
      apply writer_touches_only. }
  destruct (main sys w) as [r w'] eqn:E.
  exact (H w r w' E other Hother).
Qed.

(** X23. A whole run on a page with at least one usable company: with the
    three settings in place and an answer that is not an HTTP error and
    decodes to a dict with such items, the file named after the location
    and the first code holds the blocks of the usable companies, in the
    order of the page. *)
Theorem run_writes_the_blocks (key location s first_code header : pystr)
  (rest : list pystr) (r : response) (kv : list (pystr * json))
  (kvs : list (list (pystr * json))) (w : world) :
  let codes := first_code :: rest in
  let name := output_filename_of location first_code in
  let text := join newline (List.concat (map block_of (filter usable kvs))) in
  environ sys (lit "API_KEY") = Some key -> key <> [] ->
  environ sys (lit "LOCATION") = Some location -> location <> [] ->
  environ sys (lit "SIC_CODES") = Some s -> clean_codes s = codes ->
  authorization key = Returns header ->
  http_get sys (request_url location codes) header = Responds r ->
  ~ (400 <= status_code r < 600) ->
  decoded r = inr (JObj kv) ->
  dict_get kv (lit "items") = Some (JList (map JObj kvs)) ->
  filter usable kvs <> [] ->
  open_error sys name = None ->
  encodable text ->
  read_file (snd (main sys w)) name = Some text.
Proof.
  intros codes name text Hkey Hk Hloc Hl Hsic Hclean Hauth Hget Hstatus
    Hbody Hitems Husable Hopen Henc.
  assert (Hcodes : codes <> []) by (subst codes; discriminate).
  rewrite (main_configured sys key location s codes
             Hkey Hk Hloc Hl Hsic Hclean Hcodes).
  unfold bind.
  rewrite (fetch_returns sys key location header codes r (JObj kv) w
             Hauth Hget Hstatus Hbody).
  replace (truthy (JObj kv)) with true
    by (destruct kv; [discriminate Hitems | reflexivity]).
  exact (report_holds_the_blocks_aux sys kv kvs location first_code rest _
           Hitems Husable Hopen Henc).
Qed.

End WholeRun.

(* ===================================================================== *)
(** ** The properties on concrete runs *)
(* ===================================================================== *)

#[local] Existing Instance sample_runtime.

Example filename_new_york :
  output_filename_of (rt := sample_runtime) (lit "New York!") (lit "62020")
  = lit "New_York__62020.txt".
Proof. reflexivity. Qed.

Example codes_cleaned : clean_codes (lit "62020, 99") = sample_codes.
Proof. reflexivity. Qed.

(** Two companies, the second without address line 2: two blocks, the
    second of five lines. *)
Example run_two_blocks :
  main (rt := sample_runtime) (answering (inr (page [acme; bolt] 2)))
    empty_world
  = (Returns tt,
     World [(sample_file,
             lines ["ACME LTD"; "1 High Street"; "Floor 2"; "Leeds";
                    "LS1 1AA"; "----";
                    "BOLT LTD"; "2 Low Road"; "York"; "YO1 2BB"; "----"]%string)]
       [lit "Requesting URL: " ++ sample_url;
        lit "Addresses successfully written to New_York__62020.txt";
        lit "Total companies processed and written: 2";
        lit "Total hits reported by API: 2"]).
Proof. vm_compute. reflexivity. Qed.

(** An empty [items]: the no-data message and no block. *)
Example run_empty_items :
  main (rt := sample_runtime) (answering (inr (page [] 0))) empty_world
  = (Returns tt,
     World [(sample_file,
             lit "No company data found for location 'New York!' and SIC code(s) '62020, 99'."
             ++ newline)]
       [lit "Requesting URL: " ++ sample_url;
        lit "No company items found in the data or 'items' is empty for New York! / 62020, 99.";
        lit "Output file 'New_York__62020.txt' created with no data message."]).
Proof. vm_compute. reflexivity. Qed.

(** One company whose address is [null]: nothing processed, one skipped. *)
Example run_null_address :
  main (rt := sample_runtime) (answering (inr (page [ghost] 1))) empty_world
  = (Returns tt,
     World [(sample_file,
             lit "No companies with complete address data found for location 'New York!' and SIC code(s) '62020, 99'."
             ++ newline
             ++ lit "Total records received: 1, Total skipped: 1" ++ newline)]
       [lit "Requesting URL: " ++ sample_url;
        lit "All records were skipped due to missing address information for New York! / 62020, 99.";
        lit "Output file 'New_York__62020.txt' created indicating all records skipped."]).
Proof. vm_compute. reflexivity. Qed.

(** A response without [hits]: the run ends in a [TypeError] after the
    report was written. *)
Example run_without_hits :
  main (rt := sample_runtime) (answering (inr (page_without_hits [acme])))
    empty_world
  = (Raises (Exc KTypeError (lit "'<' not supported between instances")),
     World [(sample_file,
             lines ["ACME LTD"; "1 High Street"; "Floor 2"; "Leeds";
                    "LS1 1AA"; "----"]%string)]
       [lit "Requesting URL: " ++ sample_url;
        lit "Addresses successfully written to New_York__62020.txt";
        lit "Total companies processed and written: 1";
        lit "Total hits reported by API: N/A"]).
Proof. vm_compute. reflexivity. Qed.

(** With a requests older than 2.27 the body that does not decode reaches
    the [json.JSONDecodeError] clause. *)
Example undecodable_body_legacy :
  fetch_company_data (rt := legacy_runtime)
    (answering (inl (lit "Expecting value: line 1 column 1 (char 0)")))
    sample_key sample_location sample_codes empty_world
  = (Returns JNull,
     World []
       [lit "Requesting URL: " ++ sample_url;
        lit "Failed to decode JSON from response.";
        lit "Response text: "]).
Proof. vm_compute. reflexivity. Qed.

(** C3, on the code. A request that succeeds with a body that does not
    decode: with requests 2.27 or later the exception of [response.json()]
    is a [RequestException], so the clause for unexpected request errors,
    which comes first, handles it; the clause for [json.JSONDecodeError]
    would accept it too and is never reached. The fetcher returns [None]. *)
Theorem undecodable_body_request_branch :
  let msg := lit "Expecting value: line 1 column 1 (char 0)" in
  let e := Exc KRequestsJSONDecodeError msg in
  response_json (rt := sample_runtime) (sample_response (inl msg)) = Raises e
  /\ first_clause fetch_clauses e = Some CRequestException
  /\ isinstance e CJSONDecodeError = true
  /\ fetch_company_data (rt := sample_runtime) (answering (inl msg))
       sample_key sample_location sample_codes empty_world
     = (Returns JNull,
        World []
          [lit "Requesting URL: " ++ sample_url;
           lit "An unexpected request error occurred: Expecting value: line 1 column 1 (char 0)"]).
Proof. repeat split; vm_compute; reflexivity. Qed.

(** C1 as stated fails: a fetch that succeeds with the body [{}], with a
    file that cannot be opened, or with an item that is not a dict leaves
    no output file. *)
Lemma report_file_missing :
  main (rt := sample_runtime) (answering (inr (JObj []))) empty_world
  = (Returns tt,
     World []
       [lit "Requesting URL: " ++ sample_url;
        lit "Could not retrieve or process company data. Please check previous error messages."])
  /\ main (rt := sample_runtime) (read_only (inr (page [acme] 1))) empty_world
     = (Returns tt,
        World []
          [lit "Requesting URL: " ++ sample_url;
           lit "Error writing to file New_York__62020.txt: [Errno 13] Permission denied"])
  /\ main (rt := sample_runtime) (answering (inr (page [JInt 1] 1)))
       empty_world
     = (Raises (Exc KAttributeError (lit "object has no attribute 'get'")),
        World [] [lit "Requesting URL: " ++ sample_url]).
Proof. repeat split; vm_compute; reflexivity. Qed.

(** C2 as stated fails: a company without a name, whose address holds only
    line 2, would be skipped with an empty-string default for the name; the
    code reads the name as ["N/A"] and writes a block. *)
Lemma nameless_not_skipped :
  dict_get nameless_fields (lit "registered_office_address")
  = Some nameless_address
  /\ truthy nameless_address = true
  /\ blank4 (spec_extraction nameless_fields nameless_address)
  /\ extract nameless nameless_address
     = Returns (Extracted (JStr (lit "N/A")) (JStr []) (JStr (lit "Suite 1"))
                  (JStr []) (JStr []))
  /\ extract nameless nameless_address
     <> Returns (spec_extraction nameless_fields nameless_address)
  /\ loop_body (rt := sample_runtime) nameless start
     = Returns (LoopState [lit "N/A"; []; lit "Suite 1"; []; []; lit "----"]
                  0 1).
Proof.
  split; [reflexivity |]. split; [reflexivity |].
  split; [repeat split |]. split; [reflexivity |].
  split; [| vm_compute; reflexivity].
  vm_compute. discriminate.
Qed.

(** [report_file_written] on the run whose only company has a [null]
    address: the file holds the all-skipped message and the counts. *)
Lemma report_file_written_witness :
  exists result w' content,
    main (rt := sample_runtime) (answering (inr (page [ghost] 1))) empty_world
    = (result, w')
    /\ read_file w' sample_file = Some content
    /\ content
       = all_skipped_message sample_location sample_codes
         ++ counts_line 1 1.
Proof.
  destruct (report_file_written (rt := sample_runtime)
              (answering (inr (page [ghost] 1)))
              sample_key sample_location (lit "62020, 99") (lit "62020")
              (lit "Basic YWJjOg==") [lit "99"]
              (sample_response (inr (page [ghost] 1)))
              (page_fields [ghost] 1) empty_world)
    as (result & w' & content & Hrun & Hfile & _ & Hskipped & _);
    try reflexivity; try discriminate.
  - cbn. lia.
  - right. exists [ghost]. split; [reflexivity |].
    repeat constructor.
  - exists result, w', content.
    split; [exact Hrun |]. split; [exact Hfile |].
    apply (Hskipped [ghost] (LoopState [] 1 0)); try reflexivity.
    + discriminate.
    + vm_compute. discriminate.
Defined.

(** [extraction_and_skip] on a company with a name and a full address: it
    is processed. *)
Lemma extraction_and_skip_witness :
  extract acme acme_address = Returns (extraction acme_fields acme_address)
  /\ loop_body (rt := sample_runtime) acme start
     = Returns (processed start (extraction acme_fields acme_address)).
Proof.
  destruct (extraction_and_skip (rt := sample_runtime) acme_fields
              acme_address start eq_refl eq_refl)
    as (Hx & _ & _ & _ & _ & _ & _ & Hproc & _).
  split; [exact Hx |]. apply Hproc.
  intros (Hname & _). discriminate Hname.
Defined.

(** [authorization_header] for the credential ["abc"]. *)
Lemma authorization_header_witness :
  exists bytes,
    utf8_encode (lit "abc" ++ lit ":") = Some bytes
    /\ authorization (lit "abc") = Returns (lit "Basic " ++ b64encode bytes)
    /\ b64decode (b64encode bytes) = Some bytes.
Proof.
  destruct (authorization_header (lit "abc")) as (bytes & H1 & H2 & H3 & _).
  - repeat constructor; cbn; lia.
  - exists bytes. repeat split; assumption.
Defined.

(** [request_url_codes] for the codes read from ["62020, 99"]. *)
Lemma request_url_codes_witness :
  clean_codes (lit "62020, 99") = [lit "62020"; lit "99"]
  /\ split 44 (join (lit ",") (clean_codes (lit "62020, 99")))
     = clean_codes (lit "62020, 99").
Proof.
  split; [reflexivity |].
  apply (request_url_codes (lit "New York!") (lit "62020, 99")).
  vm_compute. discriminate.
Defined.

(** [processed_block] on the company without address line 2. *)
Lemma processed_block_witness :
  exists x,
    extract bolt bolt_address = Returns x
    /\ output_lines (processed start (extraction bolt_fields bolt_address))
       = block (rt := sample_runtime) x
    /\ List.length (block (rt := sample_runtime) x)
       = (if truthy (address_line_2 x) then 6 else 5)%nat.
Proof.
  destruct (processed_block (rt := sample_runtime) bolt start
              (processed start (extraction bolt_fields bolt_address)))
    as (kv & addr & x & Hkv & Haddr & Hx & _ & Hout & _ & Hlen).
  - reflexivity.
  - cbn. lia.
  - injection Hkv as <-. injection Haddr as <-.
    exists x. split; [exact Hx |]. split; [exact Hout | exact Hlen].
Defined.

(** [partial_note_printed] on a page of two companies that reports 1000
    hits: the note is printed. *)
Lemma partial_note_printed_witness :
  exists printed w',
    format_and_save_addresses (rt := sample_runtime)
      (answering (inr (page [acme; bolt] 1000)))
      (page [acme; bolt] 1000) sample_location sample_codes empty_world
    = (Returns tt, w')
    /\ stdout w' = printed
    /\ In partial_note printed.
Proof.
  destruct (partial_note_printed (rt := sample_runtime)
              (answering (inr (page [acme; bolt] 1000)))
              (page_fields [acme; bolt] 1000) [acme; bolt]
              (processed (processed start
                            (extraction acme_fields acme_address))
                 (extraction bolt_fields bolt_address))
              sample_location (lit "62020") [lit "99"] 1000 empty_world)
    as (printed & w' & Hrun & _ & Hout & Hnote);
    try reflexivity; try discriminate; try (vm_compute; discriminate).
  exists printed, w'. split; [exact Hrun |]. split; [exact Hout |].
  apply Hnote. cbn. lia.
Defined.

(** [loop_accounts] on two companies with an address and one without. *)
Lemma loop_accounts_witness :
  exists st,
    for_each (rt := sample_runtime) [acme; bolt; ghost] start = Returns st
    /\ processed_count st + skipped_count st = 3
    /\ (output_lines st <> [] <-> 0 < processed_count st).
Proof.
  exists (skip (processed (processed start
                             (extraction acme_fields acme_address))
                  (extraction bolt_fields bolt_address))).
  split; [reflexivity |].
  apply (loop_accounts (rt := sample_runtime) [acme; bolt; ghost]).
  reflexivity.
Defined.

(** [missing_hits_type_error] on a page of one company and no hits. *)
Lemma missing_hits_type_error_witness :
  exists e w',
    format_and_save_addresses (rt := sample_runtime)
      (answering (inr (page_without_hits [acme])))
      (page_without_hits [acme]) sample_location sample_codes empty_world
    = (Raises e, w')
    /\ kind e = KTypeError
    /\ read_file w' sample_file
       = Some (lines ["ACME LTD"; "1 High Street"; "Floor 2"; "Leeds";
                      "LS1 1AA"; "----"]%string).
Proof.
  destruct (missing_hits_type_error (rt := sample_runtime)
              (answering (inr (page_without_hits [acme])))
              [field "items" (JList [acme])] [acme]
              (processed start (extraction acme_fields acme_address))
              sample_location (lit "62020") [lit "99"] empty_world)
    as (e & w' & Hrun & Hkind & _ & _ & Hfile & _);
    try reflexivity; try (vm_compute; discriminate).
  exists e, w'. split; [exact Hrun |]. split; [exact Hkind | exact Hfile].
Defined.

(** *** The further properties on concrete runs *)

(** [transport_failure_reported] on a connection that timed out: it is
    reported as a timeout. *)
Lemma transport_failure_reported_witness :
  fetch_company_data (failing connect_timeout) sample_key sample_location
    sample_codes empty_world
  = (Returns JNull,
     World []
       [lit "Requesting URL: " ++ sample_url;
        lit "Timeout error occurred: timed out"]).
Proof.
  exact (transport_failure_reported (failing connect_timeout) sample_key
           sample_location (lit "Basic YWJjOg==") sample_codes
           connect_timeout empty_world eq_refl eq_refl eq_refl
           ltac:(discriminate)).
Defined.

(** [http_error_reported] on a 404 answer. *)
Lemma http_error_reported_witness :
  exists msg,
    raise_for_status not_found = Raises (Exc KHTTPError msg)
    /\ fetch_company_data refusing sample_key sample_location sample_codes
         empty_world
       = (Returns JNull,
          World []
            [lit "Requesting URL: " ++ sample_url;
             lit "HTTP error occurred: " ++ msg;
             lit "Response status code: 404";
             lit "Response text: {}"]).
Proof.
  apply (http_error_reported refusing sample_key sample_location
           (lit "Basic YWJjOg==") sample_codes not_found empty_world);
    try reflexivity.
  cbn. lia.
Defined.

(** [fetched_data_is_the_body] on an answered request. *)
Lemma fetched_data_is_the_body_witness :
  exists header r,
    authorization sample_key = Returns header
    /\ http_get (answering (inr (page [acme] 1)))
         (request_url sample_location sample_codes) header
       = Responds r
    /\ decoded r = inr (page [acme] 1).
Proof.
  destruct (fetched_data_is_the_body (answering (inr (page [acme] 1)))
              sample_key sample_location sample_codes empty_world
              (announced sample_location sample_codes empty_world)
              (page [acme] 1))
    as (header & r & H1 & H2 & _ & H3 & _).
  - reflexivity.
  - discriminate.
  - exists header, r. split; [exact H1 |]. split; [exact H2 | exact H3].
Defined.

(** [credential_only_in_header] for two credentials. *)
Lemma credential_only_in_header_witness :
  fetch_company_data (answering (inr (page [acme] 1))) (lit "abc")
    sample_location sample_codes empty_world
  = fetch_company_data (answering (inr (page [acme] 1))) (lit "xyz")
      sample_location sample_codes empty_world.
Proof.
  exact (credential_only_in_header (answering (inr (page [acme] 1)))
           (lit "abc") (lit "xyz") sample_location (lit "Basic YWJjOg==")
           (lit "Basic eHl6Og==") sample_codes empty_world
           eq_refl eq_refl eq_refl).
Defined.

(** [header_determines_credential] for the credential ["abc"]. *)
Lemma header_determines_credential_witness :
  exists encoded bytes,
    lit "Basic YWJjOg==" = lit "Basic " ++ encoded
    /\ b64decode encoded = Some bytes
    /\ utf8_decode bytes = Some (lit "abc" ++ lit ":").
Proof.
  exact (proj1 (header_determines_credential (lit "abc")
                  (lit "Basic YWJjOg==") eq_refl)).
Defined.

(** [failed_fetch_leaves_files] on a body that does not decode. *)
Lemma failed_fetch_leaves_files_witness :
  exists printed,
    main (answering (inl (lit "Expecting value"))) empty_world
    = (Returns tt, World [] printed).
Proof.
  pose proof (failed_fetch_leaves_files
                (answering (inl (lit "Expecting value")))
                sample_key sample_location (lit "62020, 99") sample_codes
                empty_world eq_refl ltac:(discriminate) eq_refl
                ltac:(discriminate) eq_refl eq_refl ltac:(discriminate))
    as H.
  destruct (fetch_company_data (answering (inl (lit "Expecting value")))
              sample_key sample_location sample_codes empty_world)
    as [[data | e] w1] eqn:E.
  - vm_compute in E. injection E as <- <-.
    eexists. exact (H eq_refl).
  - vm_compute in E. discriminate E.
Defined.

(** [clean_codes_read_back] on the two sample codes. *)
Lemma clean_codes_read_back_witness :
  clean_codes (lit "62020,99") = sample_codes
  /\ clean_codes (lit "62020, 99") = sample_codes.
Proof.
  apply (clean_codes_read_back sample_codes).
  repeat (apply Forall_cons;
          [unfold clean_code; split; [discriminate |];
           split; [cbn; lia |];
           split; cbn; intros ? [= <-]; reflexivity |]).
  apply Forall_nil.
Defined.

(** [refused_file_is_reported] on a page with one company. *)
Lemma refused_file_is_reported_witness :
  files (snd (format_and_save_addresses (read_only (inr (page [acme] 1)))
                (page [acme] 1) sample_location sample_codes empty_world))
  = [].
Proof.
  exact (proj1 (refused_file_is_reported (read_only (inr (page [acme] 1)))
                  (page [acme] 1) sample_location (lit "62020")
                  (lit "[Errno 13] Permission denied") [lit "99"]
                  empty_world eq_refl)).
Defined.

(** [absent_response_report] on no response at all. *)
Lemma absent_response_report_witness :
  exists w',
    format_and_save_addresses (answering (inr JNull)) JNull sample_location
      sample_codes empty_world
    = (Returns tt, w')
    /\ read_file w' sample_file
       = Some (no_data_message sample_location sample_codes).
Proof.
  eexists. split.
  - apply (absent_response_report (answering (inr JNull)) JNull
             sample_location (lit "62020") [lit "99"] empty_world).
    + left. reflexivity.
    + reflexivity.
    + vm_compute. discriminate.
  - reflexivity.
Defined.

(** [all_skipped_counts_agree] on a page of one company without address. *)
Lemma all_skipped_counts_agree_witness :
  exists w',
    format_and_save_addresses (answering (inr (page [ghost] 1)))
      (page [ghost] 1) sample_location sample_codes empty_world
    = (Returns tt, w')
    /\ read_file w' sample_file
       = Some (all_skipped_message sample_location sample_codes
               ++ counts_line 1 1).
Proof.
  apply (all_skipped_counts_agree (answering (inr (page [ghost] 1)))
           (page_fields [ghost] 1) [ghost_fields] sample_location
           (lit "62020") [lit "99"] empty_world);
    try reflexivity; try discriminate.
Defined.

(** [report_holds_the_blocks] on a page of which one company is usable. *)
Lemma report_holds_the_blocks_witness :
  read_file
    (snd (format_and_save_addresses (answering (inr (page [ghost; bolt] 2)))
            (page [ghost; bolt] 2) sample_location sample_codes empty_world))
    sample_file
  = Some (lines ["BOLT LTD"; "2 Low Road"; "York"; "YO1 2BB"; "----"]%string).
Proof.
  apply (report_holds_the_blocks (answering (inr (page [ghost; bolt] 2)))
           (page_fields [ghost; bolt] 2) [ghost_fields; bolt_fields]
           sample_location (lit "62020") [lit "99"] empty_world);
    try reflexivity; vm_compute; discriminate.
Defined.


(** [malformed_item_writes_nothing] on a page whose item is a number. *)
Lemma malformed_item_writes_nothing_witness :
  exists e,
    format_and_save_addresses (answering (inr (page [JInt 1] 1)))
      (page [JInt 1] 1) sample_location sample_codes empty_world
    = (Raises e, empty_world)
    /\ kind e = KAttributeError.
Proof.
  apply (malformed_item_writes_nothing (answering (inr (page [JInt 1] 1)))
           (page_fields [JInt 1] 1) [JInt 1] sample_location (lit "62020")
           [lit "99"] empty_world).
  - reflexivity.
  - intros H. inversion H as [| ? ? Hd _]. discriminate Hd.
Defined.

(** [non_dict_address] on a company whose address is a string. *)
Lemma non_dict_address_witness :
  loop_body lodger start
  = Returns (LoopState [lit "LODGER LTD"; []; []; []; lit "----"] 0 1).
Proof.
  exact (non_dict_address lodger_fields (JStr (lit "care of the agent")) start
           eq_refl eq_refl eq_refl).
Defined.

(** [run_changes_one_file] on a run that writes its report: another file
    is left alone. *)
Lemma run_changes_one_file_witness :
  read_file
    (snd (main (answering (inr (page [acme] 1)))
            (World [(lit "notes.txt", lit "keep")] [])))
    (lit "notes.txt")
  = Some (lit "keep").
Proof.
  apply (run_changes_one_file (answering (inr (page [acme] 1)))
           (World [(lit "notes.txt", lit "keep")] []) (lit "notes.txt")).
  vm_compute. discriminate.
Defined.

(** [run_writes_the_blocks] on a page of two companies. *)
Lemma run_writes_the_blocks_witness :
  read_file (snd (main (answering (inr (page [acme; bolt] 2))) empty_world))
    sample_file
  = Some (lines ["ACME LTD"; "1 High Street"; "Floor 2"; "Leeds";
                 "LS1 1AA"; "----";
                 "BOLT LTD"; "2 Low Road"; "York"; "YO1 2BB"; "----"]%string).
Proof.
  apply (run_writes_the_blocks (answering (inr (page [acme; bolt] 2)))
           sample_key sample_location (lit "62020, 99") (lit "62020")
           (lit "Basic YWJjOg==") [lit "99"]
           (sample_response (inr (page [acme; bolt] 2)))
           (page_fields [acme; bolt] 2) [acme_fields; bolt_fields]
           empty_world);
    try reflexivity; try discriminate; try (cbn; lia);
    vm_compute; discriminate.
Defined.
